(** * Road features service: bounding-box filter and feature store

    A shallow embedding of [main.py]: the feature store ([load_all_features],
    [reload_features], [get_stats], [health]) and the bounding-box query
    ([get_geojson]), with the properties of the specification stated over it.

    Modelling choices.
    - A value produced by [json.load] is a [json] tree.  Objects keep their
      keys in insertion order, as Python dicts do, so they are association
      lists; [dict_lookup] takes the first binding of a key.
    - Numbers are exact rationals: every finite Python [int] and [float] is
      one, and Python compares an [int] with a [float] exactly.  [NaN] and
      the infinities are outside the model.  A Python [bool] is an [int],
      so [JBool] takes part in numeric comparisons with value 0 or 1.
    - A character of a Python [str] is a character of a Rocq [string].
    - Python exceptions are values: an operation that can raise returns a
      [result]; [try ... except Exception] is a match on it.
    - The [print] calls of the loader are not modelled.
    - The global [all_features] is a field of [store]; what other
      threads can read of it while the loader runs is the list
      [published] of its successive values. *)

From Stdlib Require Import List String Ascii Bool Arith Lia ZArith QArith.
Import ListNotations.
Open Scope string_scope.
Open Scope list_scope.

Set Implicit Arguments.
Set Warnings "-register-all".

(** ** Values *)

Inductive json : Type :=
| JNull
| JBool (b : bool)
| JNum (q : Q)
| JStr (s : string)
| JList (items : list json)
| JDict (fields : list (string * json)).

Inductive pyexc : Type :=
| AttributeError
| TypeError
| IndexError
| KeyError
| OSError
| ValueError.

Inductive result (A : Type) : Type :=
| Ok (a : A)
| Raise (e : pyexc).

Arguments Ok {A} a.
Arguments Raise {A} e.

Definition bind {A B : Type} (m : result A) (k : A -> result B) : result B :=
  match m with
  | Ok a => k a
  | Raise e => Raise e
  end.

Notation "x <- m ;; k" := (bind m (fun x => k))
  (at level 61, m at next level, right associativity).

(** ** Python primitives on JSON values *)

Module Py.

Fixpoint dict_lookup {V : Type} (k : string) (d : list (string * V)) : option V :=
  match d with
  | [] => None
  | (k', v) :: d' => if String.eqb k k' then Some v else dict_lookup k d'
  end.

(** [obj.get(key, default)]: only a dict has the method. *)
Definition get (obj : json) (key : string) (default : json) : result json :=
  match obj with
  | JDict d =>
      match dict_lookup key d with
      | Some v => Ok v
      | None => Ok default
      end
  | _ => Raise AttributeError
  end.

Definition as_number (v : json) : option Q :=
  match v with
  | JNum q => Some q
  | JBool true => Some 1%Q
  | JBool false => Some 0%Q
  | _ => None
  end.

Definition Qlt_bool (x y : Q) : bool := negb (Qle_bool y x).

(** [bool(v)] *)
Definition truthy (v : json) : bool :=
  match v with
  | JNull => false
  | JBool b => b
  | JNum q => negb (Qeq_bool q 0)
  | JStr s => negb (String.eqb s "")
  | JList l => match l with [] => false | _ => true end
  | JDict d => match d with [] => false | _ => true end
  end.

(** [len(v)] *)
Definition len (v : json) : result nat :=
  match v with
  | JStr s => Ok (String.length s)
  | JList l => Ok (List.length l)
  | JDict d => Ok (List.length d)
  | _ => Raise TypeError
  end.

Fixpoint chars (s : string) : list json :=
  match s with
  | EmptyString => []
  | String c s' => JStr (String c EmptyString) :: chars s'
  end.

(** The items [for c in v] visits: the elements of a list, the characters
    of a string, the keys of a dict. *)
Definition iter (v : json) : result (list json) :=
  match v with
  | JList l => Ok l
  | JStr s => Ok (chars s)
  | JDict d => Ok (map (fun kv => JStr (fst kv)) d)
  | _ => Raise TypeError
  end.

(** [v[i]] for a non-negative integer literal [i].  The keys of a dict
    read from JSON are strings, so an integer is never one of them. *)
Definition index (v : json) (i : nat) : result json :=
  match v with
  | JList l =>
      match nth_error l i with
      | Some x => Ok x
      | None => Raise IndexError
      end
  | JStr s =>
      match String.get i s with
      | Some c => Ok (JStr (String c EmptyString))
      | None => Raise IndexError
      end
  | JDict _ => Raise KeyError
  | _ => Raise TypeError
  end.

(** [a == b]; never raises on JSON values. *)
Fixpoint eq (a b : json) {struct a} : bool :=
  match a, b with
  | JNull, JNull => true
  | JBool _, JBool _ | JBool _, JNum _ | JNum _, JBool _ | JNum _, JNum _ =>
      match as_number a, as_number b with
      | Some x, Some y => Qeq_bool x y
      | _, _ => false
      end
  | JStr s, JStr t => String.eqb s t
  | JList xs, JList ys =>
      (fix go (xs ys : list json) : bool :=
         match xs, ys with
         | [], [] => true
         | x :: xs', y :: ys' => eq x y && go xs' ys'
         | _, _ => false
         end) xs ys
  | JDict dx, JDict dy =>
      Nat.eqb (List.length dx) (List.length dy)
      && (fix go (dx : list (string * json)) : bool :=
            match dx with
            | [] => true
            | (k, v) :: dx' =>
                match dict_lookup k dy with
                | Some w => eq v w
                | None => false
                end && go dx'
            end) dx
  | _, _ => false
  end.

Inductive cmpop : Type := Lt | Le | Gt | Ge.

Definition cmp_Q (op : cmpop) (x y : Q) : bool :=
  match op with
  | Lt => Qlt_bool x y
  | Le => Qle_bool x y
  | Gt => Qlt_bool y x
  | Ge => Qle_bool y x
  end.

Definition cmp_of (op : cmpop) (c : comparison) : bool :=
  match op, c with
  | Lt, Datatypes.Lt => true
  | Le, Datatypes.Lt | Le, Datatypes.Eq => true
  | Gt, Datatypes.Gt => true
  | Ge, Datatypes.Gt | Ge, Datatypes.Eq => true
  | _, _ => false
  end.

(** [a < b], [a <= b], [a > b], [a >= b]: numbers by value, strings and
    lists lexicographically, [TypeError] for every other pair. *)
Fixpoint richcmp (op : cmpop) (a b : json) {struct a} : result bool :=
  match a, b with
  | JBool _, JBool _ | JBool _, JNum _ | JNum _, JBool _ | JNum _, JNum _ =>
      match as_number a, as_number b with
      | Some x, Some y => Ok (cmp_Q op x y)
      | _, _ => Raise TypeError
      end
  | JStr s, JStr t => Ok (cmp_of op (String.compare s t))
  | JList xs, JList ys =>
      (fix go (xs ys : list json) : result bool :=
         match xs, ys with
         | x :: xs', y :: ys' => if eq x y then go xs' ys' else richcmp op x y
         | _, _ => Ok (cmp_of op (Nat.compare (List.length xs) (List.length ys)))
         end) xs ys
  | _, _ => Raise TypeError
  end.

(** [max(l)] and [min(l)] on a non-empty list: the first item is the
    candidate, and a later item replaces it when [item > candidate]
    (respectively [item < candidate]). *)
Fixpoint select (op : cmpop) (best : json) (rest : list json) : result json :=
  match rest with
  | [] => Ok best
  | item :: rest' =>
      c <- richcmp op item best ;;
      select op (if c then item else best) rest'
  end.

Definition max (l : list json) : result json :=
  match l with
  | [] => Raise ValueError
  | x :: l' => select Gt x l'
  end.

Definition min (l : list json) : result json :=
  match l with
  | [] => Raise ValueError
  | x :: l' => select Lt x l'
  end.

(** [[c[i] for c in v]] *)
Fixpoint items_at (i : nat) (cs : list json) : result (list json) :=
  match cs with
  | [] => Ok []
  | c :: cs' =>
      x <- index c i ;;
      xs <- items_at i cs' ;;
      Ok (x :: xs)
  end.

Definition comprehension (i : nat) (v : json) : result (list json) :=
  cs <- iter v ;; items_at i cs.

End Py.

(** ** The feature store *)

(** The module-level list of sources, in its configured order. *)
Definition geojson_files : list string :=
  [ "resources/split/indore_roads_part1.geojson";
    "resources/split/indore_roads_part2.geojson";
    "resources/split/indore_roads_part3.geojson";
    "resources/split/indore_roads_part4.geojson";
    "resources/split/indore_roads_part5.geojson";
    "resources/split/indore_roads_part6.geojson" ].

(** What the process sees of the disk: for a path, [None] when
    [os.path.exists] is false, otherwise the outcome of opening the file
    and running [json.load] on it ([OSError] for an unreadable file,
    [ValueError] for text that is not JSON). *)
Definition filesystem : Type := string -> option (result json).

Definition exists_ (fs : filesystem) (file_path : string) : bool :=
  match fs file_path with
  | Some _ => true
  | None => false
  end.

Definition read_json (fs : filesystem) (file_path : string) : result json :=
  match fs file_path with
  | Some r => r
  | None => Raise OSError
  end.

(** The global [all_features]. *)
Record store : Type := { all_features : list json }.

(** The [try] block of [load_all_features] for one source: the list it
    hands to [all_features.extend]. *)
Definition read_features (fs : filesystem) (file_path : string) : result (list json) :=
  data <- read_json fs file_path ;;
  features <- Py.get data "features" (JList []) ;;
  Py.iter features.

(** One iteration of the loop over [geojson_files], on the current value
    of the global. *)
Definition load_file (fs : filesystem) (st : store) (file_path : string) : store :=
  if exists_ fs file_path then
    match read_features fs file_path with
    | Ok features => {| all_features := all_features st ++ features |}
    | Raise _ => st
    end
  else st.

Definition load_from (fs : filesystem) (files : list string) (st : store) : store :=
  fold_left (load_file fs) files st.

Definition load_all_features (fs : filesystem) (st : store) : store :=
  load_from fs geojson_files {| all_features := [] |}.

(** The successive values of the global while [load_all_features] runs:
    after the assignment [all_features = []], then after each source. *)
Fixpoint published_from (fs : filesystem) (files : list string) (st : store) : list store :=
  st :: match files with
        | [] => []
        | file_path :: files' => published_from fs files' (load_file fs st file_path)
        end.

Definition published (fs : filesystem) : list store :=
  published_from fs geojson_files {| all_features := [] |}.

Definition files_on_disk (fs : filesystem) : nat :=
  List.length (filter (exists_ fs) geojson_files).

(** ** The bounding-box query *)

Record bbox : Type := { north : Q; south : Q; east : Q; west : Q }.

Record geojson_response : Type := {
  gj_type : string;
  gj_features : list json;
  total_in_bbox : nat;
  total_searched : nat;
  gj_bbox : bbox
}.

(** The [for line in coords] loop of the MultiLineString branch. *)
Fixpoint extend_lines (lines lngs lats : list json) : result (list json * list json) :=
  match lines with
  | [] => Ok (lngs, lats)
  | line :: lines' =>
      xs <- Py.comprehension 0 line ;;
      ys <- Py.comprehension 1 line ;;
      extend_lines lines' (lngs ++ xs) (lats ++ ys)
  end.

(** Lines 65-88: the longitudes and latitudes of a feature; [Ok None] is
    a [continue]. *)
Definition flatten (feature : json) : result (option (list json * list json)) :=
  geometry <- Py.get feature "geometry" (JDict []) ;;
  coords <- Py.get geometry "coordinates" (JList []) ;;
  geom_type <- Py.get geometry "type" (JStr "") ;;
  if Py.eq geom_type (JStr "LineString") then
    lngs <- Py.comprehension 0 coords ;;
    lats <- Py.comprehension 1 coords ;;
    Ok (Some (lngs, lats))
  else if Py.eq geom_type (JStr "MultiLineString") then
    lines <- Py.iter coords ;;
    ll <- extend_lines lines [] [] ;;
    Ok (Some ll)
  else if Py.eq geom_type (JStr "Polygon") then
    nonempty <- (if Py.truthy coords
                 then n <- Py.len coords ;; Ok (0 <? n)%nat
                 else Ok false) ;;
    if nonempty then
      ring <- Py.index coords 0 ;;
      lngs <- Py.comprehension 0 ring ;;
      lats <- Py.comprehension 1 ring ;;
      Ok (Some (lngs, lats))
    else Ok None
  else Ok None.

(** Lines 91-104: the emptiness check and the intersection test, with the
    short-circuit of [and]. *)
Definition intersects (box : bbox) (lngs lats : list json) : result bool :=
  match lngs, lats with
  | [], _ | _, [] => Ok false
  | _, _ =>
      feature_north <- Py.max lats ;;
      feature_south <- Py.min lats ;;
      feature_east <- Py.max lngs ;;
      feature_west <- Py.min lngs ;;
      c1 <- Py.richcmp Py.Le feature_south (JNum (north box)) ;;
      if negb c1 then Ok false else
      c2 <- Py.richcmp Py.Ge feature_north (JNum (south box)) ;;
      if negb c2 then Ok false else
      c3 <- Py.richcmp Py.Le feature_west (JNum (east box)) ;;
      if negb c3 then Ok false else
      Py.richcmp Py.Ge feature_east (JNum (west box))
  end.

(** How the body of the loop ends for one feature. *)
Inductive outcome : Type :=
| Appended
| Skipped
| Raised (e : pyexc).

Definition process (box : bbox) (feature : json) : outcome :=
  match flatten feature with
  | Raise e => Raised e
  | Ok None => Skipped
  | Ok (Some (lngs, lats)) =>
      match intersects box lngs lats with
      | Raise e => Raised e
      | Ok true => Appended
      | Ok false => Skipped
      end
  end.

(** The loop of [get_geojson]: [except Exception: continue] treats a
    raised exception like a skip. *)
Definition filter_step (box : bbox) (filtered : list json) (feature : json) : list json :=
  match process box feature with
  | Appended => filtered ++ [feature]
  | Skipped => filtered
  | Raised _ => filtered
  end.

Definition get_geojson (box : bbox) (st : store) : geojson_response :=
  let filtered := fold_left (filter_step box) (all_features st) [] in
  {| gj_type := "FeatureCollection";
     gj_features := filtered;
     total_in_bbox := List.length filtered;
     total_searched := List.length (all_features st);
     gj_bbox := box |}.

(** ** The other endpoints *)

Record all_response : Type := {
  ga_features : list json;
  ga_total_features : nat
}.

Definition get_all_geojson (st : store) : all_response :=
  {| ga_features := all_features st;
     ga_total_features := List.length (all_features st) |}.

Record reload_response : Type := {
  rl_status : string;
  rl_total_features : nat;
  files_attempted : nat;
  rl_files_loaded : nat
}.

Definition reload_features (fs : filesystem) (st : store) : store * reload_response :=
  let st' := load_all_features fs st in
  (st', {| rl_status := "reloaded";
           rl_total_features := List.length (all_features st');
           files_attempted := List.length geojson_files;
           rl_files_loaded := files_on_disk fs |}).

Definition color_counts0 : list (string * nat) :=
  [("red", 0); ("blue", 0); ("yellow", 0); ("green", 0); ("unknown", 0)]%nat.

(** [d[key] += 1] on a key the dict has. *)
Fixpoint increment (key : string) (d : list (string * nat)) : list (string * nat) :=
  match d with
  | [] => []
  | (k, n) :: d' =>
      if String.eqb key k then (k, S n) :: d' else (k, n) :: increment key d'
  end.

(** [color in color_counts]: hashing a list or a dict raises; a value
    that is not a string equals none of the keys. *)
Definition contains (color : json) (d : list (string * nat)) : result bool :=
  match color with
  | JList _ | JDict _ => Raise TypeError
  | JStr s => Ok (match Py.dict_lookup s d with Some _ => true | None => false end)
  | _ => Ok false
  end.

Definition count_color (color_counts : list (string * nat)) (feature : json)
  : result (list (string * nat)) :=
  properties <- Py.get feature "properties" (JDict []) ;;
  color <- Py.get properties "color" (JStr "unknown") ;;
  known <- contains color color_counts ;;
  match color, known with
  | JStr s, true => Ok (increment s color_counts)
  | _, _ => Ok (increment "unknown" color_counts)
  end.

Fixpoint count_colors (color_counts : list (string * nat)) (features : list json)
  : result (list (string * nat)) :=
  match features with
  | [] => Ok color_counts
  | feature :: features' =>
      color_counts' <- count_color color_counts feature ;;
      count_colors color_counts' features'
  end.

Record stats_response : Type := {
  st_total_features : nat;
  color_distribution : list (string * nat);
  st_files_configured : nat;
  st_files_loaded : nat
}.

Definition get_stats (fs : filesystem) (st : store) : result stats_response :=
  color_counts <- count_colors color_counts0 (all_features st) ;;
  Ok {| st_total_features := List.length (all_features st);
        color_distribution := color_counts;
        st_files_configured := List.length geojson_files;
        st_files_loaded := files_on_disk fs |}.

Record health_response : Type := {
  status : string;
  features_loaded : nat;
  files_available : nat;
  files_configured : nat
}.

Definition health (fs : filesystem) (st : store) : health_response :=
  let available := files_on_disk fs in
  {| status := if (0 <? available)%nat then "healthy" else "error";
     features_loaded := List.length (all_features st);
     files_available := available;
     files_configured := List.length geojson_files |}.

(** ** Specification-side notions *)

(** A feature is kept when the loop body reaches [filtered.append]. *)
Definition included (box : bbox) (feature : json) : bool :=
  match process box feature with
  | Appended => true
  | _ => false
  end.

(** [subseq l1 l2]: [l1] is [l2] with some items left out, the others in
    their places. *)
Inductive subseq {A : Type} : list A -> list A -> Prop :=
| subseq_nil : subseq [] []
| subseq_keep x l1 l2 : subseq l1 l2 -> subseq (x :: l1) (x :: l2)
| subseq_drop x l1 l2 : subseq l1 l2 -> subseq l1 (x :: l2).

(** The numeric values of a list of coordinates, when all are numbers. *)
Fixpoint numbers (l : list json) : option (list Q) :=
  match l with
  | [] => Some []
  | v :: l' =>
      match Py.as_number v, numbers l' with
      | Some q, Some qs => Some (q :: qs)
      | _, _ => None
      end
  end.

Definition is_max (m : Q) (l : list Q) : Prop :=
  In m l /\ forall x, In x l -> (x <= m)%Q.

Definition is_min (m : Q) (l : list Q) : Prop :=
  In m l /\ forall x, In x l -> (m <= x)%Q.

(** The longitudes and latitudes of a feature whose geometry is of a
    supported type and whose points are all numeric. *)
Definition coordinates (feature : json) : option (list Q * list Q) :=
  match flatten feature with
  | Ok (Some (lngs, lats)) =>
      match numbers lngs, numbers lats with
      | Some xs, Some ys => Some (xs, ys)
      | _, _ => None
      end
  | _ => None
  end.

(** The derived bounding box of a feature, following the specification's
    words: north and south are the greatest and least latitude, east and
    west the greatest and least longitude. *)
Record feature_box : Type := {
  feature_north : Q;
  feature_south : Q;
  feature_east : Q;
  feature_west : Q
}.

Definition derived_box (feature : json) (fb : feature_box) : Prop :=
  exists lngs lats,
    coordinates feature = Some (lngs, lats)
    /\ is_max (feature_north fb) lats /\ is_min (feature_south fb) lats
    /\ is_max (feature_east fb) lngs /\ is_min (feature_west fb) lngs.

(** The inclusive overlap test of two axis-aligned rectangles. *)
Definition overlaps (fb : feature_box) (box : bbox) : Prop :=
  (feature_south fb <= north box)%Q /\ (feature_north fb >= south box)%Q
  /\ (feature_west fb <= east box)%Q /\ (feature_east fb >= west box)%Q.

(** The value-level counterpart of [Py.select]. *)
Fixpoint Qselect (op : Py.cmpop) (best : Q) (rest : list Q) : Q :=
  match rest with
  | [] => best
  | x :: rest' => Qselect op (if Py.cmp_Q op x best then x else best) rest'
  end.

(** Well-formed geometries, as the data model describes them. *)
Definition point (p : Q * Q) : json := JList [JNum (fst p); JNum (snd p)].

Definition line (ps : list (Q * Q)) : json := JList (map point ps).

Definition lngs_of (ps : list (Q * Q)) : list json := map (fun p => JNum (fst p)) ps.

Definition lats_of (ps : list (Q * Q)) : list json := map (fun p => JNum (snd p)) ps.

(** [feature] has a geometry object whose type tag and coordinates, with
    the defaults of [.get] for absent fields, are [tag] and [coords]. *)
Definition has_geometry (feature tag coords : json) : Prop :=
  exists geometry,
    Py.get feature "geometry" (JDict []) = Ok geometry
    /\ Py.get geometry "coordinates" (JList []) = Ok coords
    /\ Py.get geometry "type" (JStr "") = Ok tag.

Definition supported_tag (tag : json) : Prop :=
  tag = JStr "LineString" \/ tag = JStr "MultiLineString" \/ tag = JStr "Polygon".

(** ** Further notions used in the statements *)

(** The four comparisons of the test on numeric bounds. *)
Definition overlap_test (box : bbox) (fn fs fe fw : Q) : bool :=
  Qle_bool fs (north box) && Qle_bool (south box) fn
  && Qle_bool fw (east box) && Qle_bool (west box) fe.

(** The malformations the query can meet in a feature: a structural
    error while its coordinates are extracted (a feature or geometry
    that is not an object, coordinates of the wrong shape, a point with
    fewer than two entries), a coordinate that is not a number, and a
    missing [geometry], [type] or [coordinates] field. *)
Inductive malformed (f : json) : Prop :=
| structural_error e :
    flatten f = Raise e -> malformed f
| non_numeric_coordinates lngs lats :
    flatten f = Ok (Some (lngs, lats)) ->
    numbers lngs = None \/ numbers lats = None ->
    malformed f
| missing_field d :
    f = JDict d ->
    Py.dict_lookup "geometry" d = None
    \/ (exists gd, Py.dict_lookup "geometry" d = Some (JDict gd)
                   /\ (Py.dict_lookup "type" gd = None
                       \/ Py.dict_lookup "coordinates" gd = None)) ->
    malformed f.

Definition known_colors : list string := ["red"; "blue"; "yellow"; "green"].

(** The [color] property of a feature, when it has one. *)
Definition color_of (f : json) : option json :=
  match f with
  | JDict d =>
      match Py.dict_lookup "properties" d with
      | Some (JDict pd) => Py.dict_lookup "color" pd
      | _ => None
      end
  | _ => None
  end.

(** The bucket the specification assigns to a feature: its colour when
    that is one of the known colours, "unknown" otherwise. *)
Definition bucket (f : json) : string :=
  match color_of f with
  | Some (JStr s) => if existsb (String.eqb s) known_colors then s else "unknown"
  | _ => "unknown"
  end.

Definition tally (c : string) (l : list json) : nat :=
  List.length (filter (fun f => String.eqb (bucket f) c) l).

(** A feature as the data model has it: a record whose [properties],
    when present, is a mapping, and whose [color], when present, is a
    scalar. *)
Definition stats_typed (f : json) : bool :=
  match f with
  | JDict d =>
      match Py.dict_lookup "properties" d with
      | None => true
      | Some (JDict pd) =>
          match Py.dict_lookup "color" pd with
          | Some (JList _) | Some (JDict _) => false
          | _ => true
          end
      | Some _ => false
      end
  | _ => false
  end.

Definition five (a b c d e : nat) : list (string * nat) :=
  [("red", a); ("blue", b); ("yellow", c); ("green", d); ("unknown", e)].

Definition bump (c key : string) : nat := if String.eqb key c then 1 else 0.

(** An atomic swap, in the specification's words: whatever a reader
    sees while a reload runs is the old collection or the new one. *)
Definition reload_is_atomic_swap (fs : filesystem) (old : store) : Prop :=
  forall s, In s (published fs) -> s = old \/ s = load_all_features fs old.

(** ** Example data *)

(** A feature with [properties: null], which GeoJSON allows. *)
Definition null_properties_feature : json :=
  JDict [("type", JStr "Feature");
         ("geometry", JDict [("type", JStr "LineString");
                             ("coordinates", line [(10, 20); (12, 22)]%Q)]);
         ("properties", JNull)].

Definition road (color : string) (ps : list (Q * Q)) : json :=
  JDict [("type", JStr "Feature");
         ("properties", JDict [("color", JStr color)]);
         ("geometry", JDict [("type", JStr "LineString"); ("coordinates", line ps)])].

Definition road_a : json := road "red" [(10, 20); (12, 22)]%Q.
Definition road_b : json := road "blue" [(11, 21); (13, 23)]%Q.
Definition road_old : json := road "purple" [(0, 0); (1, 1)]%Q.

Definition collection_of (features : list json) : json :=
  JDict [("type", JStr "FeatureCollection"); ("features", JList features)].

(** Two of the six sources are on disk, with one road each. *)
Definition two_files : filesystem :=
  fun file_path =>
    if String.eqb file_path "resources/split/indore_roads_part1.geojson"
    then Some (Ok (collection_of [road_a]))
    else if String.eqb file_path "resources/split/indore_roads_part2.geojson"
    then Some (Ok (collection_of [road_b]))
    else None.


Definition no_files : filesystem := fun _ => None.

(** A LineString whose only point has a single entry. *)
Definition short_point_feature : json :=
  JDict [("type", JStr "Feature");
         ("properties", JDict []);
         ("geometry", JDict [("type", JStr "LineString");
                             ("coordinates", JList [JList [JNum 10]])])].

(** ** The root endpoint *)

Record root_response : Type := {
  message : string;
  version : string;
  endpoints : list (string * string);
  fs_configured : nat;
  fs_available : nat;
  fs_features_loaded : nat
}.

Definition root (fs : filesystem) (st : store) : root_response :=
  {| message := "GeoJSON Roads API with Bounding Box Filter";
     version := "1.0.0";
     endpoints := [("/geojson", "Filter roads by bounding box");
                   ("/geojson/all", "Get all roads");
                   ("/stats", "Get color statistics");
                   ("/health", "Health check");
                   ("/reload", "Reload data files")];
     fs_configured := List.length geojson_files;
     fs_available := files_on_disk fs;
     fs_features_loaded := List.length (all_features st) |}.

(** ** Notions for the further properties *)

(** What one source adds to the collection: the items of its [features]
    field when the file is on disk and reads as an object, nothing
    otherwise. *)
Definition source_features (fs : filesystem) (file_path : string) : list json :=
  if exists_ fs file_path then
    match read_features fs file_path with
    | Ok features => features
    | Raise _ => []
    end
  else [].

(** The disk without one file. *)
Definition without (file_path : string) (fs : filesystem) : filesystem :=
  fun q => if String.eqb q file_path then None else fs q.

(** A source that adds nothing whatever else is on disk: not there,
    unreadable or not JSON, not an object, or without a [features]
    field. *)
Definition barren (fs : filesystem) (file_path : string) : Prop :=
  fs file_path = None
  \/ (exists e, fs file_path = Some (Raise e))
  \/ (exists v, fs file_path = Some (Ok v) /\ forall d, v <> JDict d)
  \/ (exists d, fs file_path = Some (Ok (JDict d))
                 /\ Py.dict_lookup "features" d = None).

(** [inner] lies within [outer]. *)
Definition inside (inner outer : bbox) : Prop :=
  (north inner <= north outer)%Q /\ (south outer <= south inner)%Q
  /\ (east inner <= east outer)%Q /\ (west outer <= west inner)%Q.

(** A position with further entries after longitude and latitude, such
    as an altitude. *)
Definition position (p : (Q * Q) * list json) : json :=
  JList (JNum (fst (fst p)) :: JNum (snd (fst p)) :: snd p).

Definition positions (ps : list ((Q * Q) * list json)) : json :=
  JList (map position ps).

(** The exception [get_stats] raises on a feature that is not
    [stats_typed]: hashing a list or a dict is a [TypeError], calling
    [.get] on what is not a dict an [AttributeError]. *)
Definition stats_error (f : json) : pyexc :=
  match color_of f with
  | Some (JList _) | Some (JDict _) => TypeError
  | _ => AttributeError
  end.

(** Two distributions over the same keys, added key by key. *)
Definition add_counts (d1 d2 : list (string * nat)) : list (string * nat) :=
  map (fun kk => (fst (fst kk), (snd (fst kk) + snd (snd kk))%nat)) (combine d1 d2).

(** A road with altitudes, and a feature of a geometry type the query
    does not support. *)
Definition road_3d : json :=
  JDict [("type", JStr "Feature");
         ("properties", JDict [("color", JStr "green")]);
         ("geometry",
          JDict [("type", JStr "LineString");
                 ("coordinates",
                  positions [((10, 20), [JNum 550]); ((12, 22), [JNum 560; JNull])]%Q)])].

Definition marker : json :=
  JDict [("type", JStr "Feature");
         ("properties", JDict [("color", JStr "yellow")]);
         ("geometry", JDict [("type", JStr "Point");
                             ("coordinates", JList [JNum 10; JNum 20])])].

(** A road that runs along one latitude. *)
Definition road_flat : json := road "green" [(10, 20); (12, 20)]%Q.

(** A feature whose [color] is a list. *)
Definition list_color_feature : json :=
  JDict [("type", JStr "Feature");
         ("properties", JDict [("color", JList [JStr "red"])]);
         ("geometry", JDict [("type", JStr "LineString");
                             ("coordinates", line [(10, 20); (12, 22)]%Q)])].

(** The second source is on disk and holds a JSON array. *)
Definition array_file : filesystem :=
  fun file_path =>
    if String.eqb file_path "resources/split/indore_roads_part1.geojson"
    then Some (Ok (collection_of [road_a]))
    else if String.eqb file_path "resources/split/indore_roads_part2.geojson"
    then Some (Ok (JList [road_b]))
    else None.

(** ** Basic facts *)

Lemma fold_filter_step box l acc :
  fold_left (filter_step box) l acc = acc ++ filter (included box) l.
Proof.
  revert acc. induction l as [|f l IH]; intros acc; simpl.
  - now rewrite app_nil_r.
  - rewrite IH. unfold filter_step, included.
    destruct (process box f); simpl; try reflexivity.
    now rewrite <- app_assoc.
Qed.

Lemma get_geojson_features box st :
  gj_features (get_geojson box st) = filter (included box) (all_features st).
Proof. unfold get_geojson; simpl. now rewrite fold_filter_step. Qed.

Lemma filter_subseq {A : Type} (p : A -> bool) (l : list A) : subseq (filter p l) l.
Proof.
  induction l as [|x l IH]; simpl.
  - constructor.
  - destruct (p x); now constructor.
Qed.

Lemma subseq_length {A : Type} (l1 l2 : list A) :
  subseq l1 l2 -> (List.length l1 <= List.length l2)%nat.
Proof. induction 1; simpl; lia. Qed.

Lemma subseq_In {A : Type} (l1 l2 : list A) x : subseq l1 l2 -> In x l1 -> In x l2.
Proof.
  induction 1; simpl; intros Hin; auto.
  destruct Hin; auto.
Qed.

(** C3: the features of the answer are the features of the collection
    that passed the test, each as it is in the collection, in collection
    order and without repetition (a subsequence); [total_in_bbox] is
    their number, [total_searched] the size of the collection, and the
    box is echoed unchanged. *)
Theorem query_result_is_ordered_subsequence (box : bbox) (st : store) :
  let r := get_geojson box st in
  gj_features r = filter (included box) (all_features st)
  /\ subseq (gj_features r) (all_features st)
  /\ total_in_bbox r = List.length (gj_features r)
  /\ total_searched r = List.length (all_features st)
  /\ gj_bbox r = box.
Proof.
  intros r. unfold r.
  split; [apply get_geojson_features|].
  split; [rewrite get_geojson_features; apply filter_subseq|].
  repeat split.
Qed.

(** ** Comparisons, [max] and [min] on coordinates *)

Lemma richcmp_number_r op a b y :
  Py.as_number b = Some y ->
  Py.richcmp op a b =
  match Py.as_number a with
  | Some x => Ok (Py.cmp_Q op x y)
  | None => Raise TypeError
  end.
Proof.
  intros Hb.
  destruct b as [|[|]|q| | |]; simpl in Hb; try discriminate;
    injection Hb as <-; destruct a as [|[|]|p| | |]; reflexivity.
Qed.

Lemma richcmp_ok_non_number op a b c :
  Py.as_number b = None -> Py.richcmp op a b = Ok c -> Py.as_number a = None.
Proof.
  intros Hb Hc.
  destruct a as [|[|]|p| | |]; try reflexivity;
    destruct b as [|[|]|q| | |]; simpl in *; discriminate.
Qed.

Lemma numbers_cons v l :
  numbers (v :: l) =
  match Py.as_number v, numbers l with
  | Some q, Some qs => Some (q :: qs)
  | _, _ => None
  end.
Proof. reflexivity. Qed.

(** On numbers, [Py.select] never raises and returns an item whose value
    is the one [Qselect] computes. *)
Lemma select_numbers op rest : forall best qb qs,
  Py.as_number best = Some qb -> numbers rest = Some qs ->
  exists v, Py.select op best rest = Ok v
            /\ Py.as_number v = Some (Qselect op qb qs).
Proof.
  induction rest as [|item rest IH]; intros best qb qs Hb Hr.
  - injection Hr as <-. exists best. now split.
  - rewrite numbers_cons in Hr.
    destruct (Py.as_number item) as [qi|] eqn:Hi; [|discriminate].
    destruct (numbers rest) as [qr|] eqn:Hq; [|discriminate].
    injection Hr as <-. simpl.
    rewrite (richcmp_number_r op item best Hb), Hi. simpl.
    destruct (Py.cmp_Q op qi qb); now apply IH.
Qed.

(** With an item that is not a number, [Py.select] raises or returns an
    item that is not a number. *)
Lemma select_non_number op rest : forall best,
  Py.as_number best = None \/ numbers rest = None ->
  match Py.select op best rest with
  | Ok v => Py.as_number v = None
  | Raise _ => True
  end.
Proof.
  induction rest as [|item rest IH]; intros best H; simpl.
  - destruct H as [H|H]; [exact H | discriminate].
  - destruct (Py.richcmp op item best) as [c|e] eqn:Hc; simpl; [|exact I].
    apply IH.
    destruct (Py.as_number best) as [qb|] eqn:Hb.
    + destruct H as [H|H]; [discriminate|].
      rewrite (richcmp_number_r op item best Hb) in Hc.
      rewrite numbers_cons in H.
      destruct (Py.as_number item) as [qi|] eqn:Hi; [|discriminate].
      right. destruct (numbers rest); [discriminate | reflexivity].
    + left. pose proof (richcmp_ok_non_number _ _ _ Hb Hc) as Hi.
      now destruct c.
Qed.

Lemma Qlt_bool_false x y : Py.Qlt_bool x y = false -> (y <= x)%Q.
Proof.
  unfold Py.Qlt_bool. intros H. apply negb_false_iff in H.
  now apply Qle_bool_iff.
Qed.

Lemma Qlt_bool_true x y : Py.Qlt_bool x y = true -> (x <= y)%Q.
Proof.
  unfold Py.Qlt_bool. intros H. apply negb_true_iff in H.
  destruct (Qlt_le_dec x y) as [Hlt|Hle].
  - now apply Qlt_le_weak.
  - apply Qle_bool_iff in Hle. congruence.
Qed.

Lemma Qselect_In op rest : forall best, In (Qselect op best rest) (best :: rest).
Proof.
  induction rest as [|x rest IH]; intros best; simpl.
  - now left.
  - specialize (IH (if Py.cmp_Q op x best then x else best)).
    destruct (Py.cmp_Q op x best); simpl in IH; intuition.
Qed.

Lemma Qselect_Gt_ge rest : forall best, (best <= Qselect Py.Gt best rest)%Q.
Proof.
  induction rest as [|x rest IH]; intros best; simpl.
  - apply Qle_refl.
  - destruct (Py.Qlt_bool best x) eqn:Hc; [|apply IH].
    eapply Qle_trans; [|apply IH]. now apply Qlt_bool_true.
Qed.

Lemma Qselect_Lt_le rest : forall best, (Qselect Py.Lt best rest <= best)%Q.
Proof.
  induction rest as [|x rest IH]; intros best; simpl.
  - apply Qle_refl.
  - destruct (Py.Qlt_bool x best) eqn:Hc; [|apply IH].
    eapply Qle_trans; [apply IH|]. now apply Qlt_bool_true.
Qed.

Lemma Qselect_Gt_is_max rest : forall best,
  is_max (Qselect Py.Gt best rest) (best :: rest).
Proof.
  induction rest as [|x rest IH]; intros best.
  - split; [now left|]. intros y [<-|[]]. apply Qle_refl.
  - split; [apply Qselect_In|].
    intros y Hy. simpl.
    destruct (Py.Qlt_bool best x) eqn:Hc.
    + destruct Hy as [<-|Hy].
      * eapply Qle_trans; [|apply Qselect_Gt_ge]. now apply Qlt_bool_true.
      * now apply (IH x).
    + destruct Hy as [<-|[<-|Hy]].
      * apply Qselect_Gt_ge.
      * eapply Qle_trans; [|apply Qselect_Gt_ge]. now apply Qlt_bool_false.
      * apply (IH best). now right.
Qed.

Lemma Qselect_Lt_is_min rest : forall best,
  is_min (Qselect Py.Lt best rest) (best :: rest).
Proof.
  induction rest as [|x rest IH]; intros best.
  - split; [now left|]. intros y [<-|[]]. apply Qle_refl.
  - split; [apply Qselect_In|].
    intros y Hy. simpl.
    destruct (Py.Qlt_bool x best) eqn:Hc.
    + destruct Hy as [<-|Hy].
      * eapply Qle_trans; [apply Qselect_Lt_le|]. now apply Qlt_bool_true.
      * now apply (IH x).
    + destruct Hy as [<-|[<-|Hy]].
      * apply Qselect_Lt_le.
      * eapply Qle_trans; [apply Qselect_Lt_le|]. now apply Qlt_bool_false.
      * apply (IH best). now right.
Qed.

Lemma is_max_unique m m' l : is_max m l -> is_max m' l -> (m == m')%Q.
Proof.
  intros [Hin Hub] [Hin' Hub']. apply Qle_antisym; auto.
Qed.

Lemma is_min_unique m m' l : is_min m l -> is_min m' l -> (m == m')%Q.
Proof.
  intros [Hin Hlb] [Hin' Hlb']. apply Qle_antisym; auto.
Qed.

(** ** The intersection test *)

Lemma numbers_nonempty l q qs :
  numbers l = Some (q :: qs) ->
  exists v l', l = v :: l' /\ Py.as_number v = Some q /\ numbers l' = Some qs.
Proof.
  destruct l as [|v l']; simpl; intros H; [discriminate|].
  destruct (Py.as_number v) as [qv|] eqn:Hv; [|discriminate].
  destruct (numbers l') as [ql|] eqn:Hl; [|discriminate].
  injection H as <- <-. now exists v, l'.
Qed.

Lemma intersects_numbers box lngs lats x xs y ys :
  numbers lngs = Some (x :: xs) -> numbers lats = Some (y :: ys) ->
  intersects box lngs lats =
  Ok (overlap_test box (Qselect Py.Gt y ys) (Qselect Py.Lt y ys)
                       (Qselect Py.Gt x xs) (Qselect Py.Lt x xs)).
Proof.
  intros Hx Hy.
  destruct (numbers_nonempty _ Hx) as (vx & lx & -> & Hvx & Hlx).
  destruct (numbers_nonempty _ Hy) as (vy & ly & -> & Hvy & Hly).
  unfold intersects, Py.max, Py.min.
  destruct (select_numbers Py.Gt ly vy Hvy Hly) as (fn & -> & Hfn).
  destruct (select_numbers Py.Lt ly vy Hvy Hly) as (fs & -> & Hfs).
  destruct (select_numbers Py.Gt lx vx Hvx Hlx) as (fe & -> & Hfe).
  destruct (select_numbers Py.Lt lx vx Hvx Hlx) as (fw & -> & Hfw).
  simpl.
  rewrite (richcmp_number_r Py.Le fs (JNum (north box)) eq_refl), Hfs.
  rewrite (richcmp_number_r Py.Ge fn (JNum (south box)) eq_refl), Hfn.
  rewrite (richcmp_number_r Py.Le fw (JNum (east box)) eq_refl), Hfw.
  rewrite (richcmp_number_r Py.Ge fe (JNum (west box)) eq_refl), Hfe.
  unfold overlap_test; simpl.
  destruct (Qle_bool _ (north box)); simpl; [|reflexivity].
  destruct (Qle_bool (south box) _); simpl; [|reflexivity].
  destruct (Qle_bool _ (east box)); reflexivity.
Qed.

Lemma richcmp_non_number_float op a q :
  Py.as_number a = None -> Py.richcmp op a (JNum q) = Raise TypeError.
Proof.
  intros Ha. now rewrite (richcmp_number_r op a (JNum q) eq_refl), Ha.
Qed.

(** A coordinate that is not a number keeps the feature out: [max] or
    [min] raises, or the comparison with the query bound does. *)
Lemma intersects_non_number box lngs lats :
  numbers lngs = None \/ numbers lats = None ->
  intersects box lngs lats <> Ok true.
Proof.
  intros H.
  destruct lngs as [|vx lx]; [discriminate|].
  destruct lats as [|vy ly]; [discriminate|].
  unfold intersects, Py.max, Py.min.
  destruct H as [H|H].
  - assert (Hsel : forall op, match Py.select op vx lx with
                              | Ok v => Py.as_number v = None
                              | Raise _ => True end).
    { intros op. apply select_non_number.
      rewrite numbers_cons in H.
      destruct (Py.as_number vx); [right|now left].
      destruct (numbers lx); [discriminate|reflexivity]. }
    pose proof (Hsel Py.Gt) as Hfe. pose proof (Hsel Py.Lt) as Hfw.
    destruct (Py.select Py.Gt vy ly) as [fn|]; simpl; [|discriminate].
    destruct (Py.select Py.Lt vy ly) as [fs|]; simpl; [|discriminate].
    destruct (Py.select Py.Gt vx lx) as [fe|]; simpl; [|discriminate].
    destruct (Py.select Py.Lt vx lx) as [fw|]; simpl; [|discriminate].
    destruct (Py.richcmp Py.Le fs _) as [[|]|]; simpl; try discriminate.
    destruct (Py.richcmp Py.Ge fn _) as [[|]|]; simpl; try discriminate.
    now rewrite (richcmp_non_number_float Py.Le fw (east box) Hfw).
  - assert (Hsel : forall op, match Py.select op vy ly with
                              | Ok v => Py.as_number v = None
                              | Raise _ => True end).
    { intros op. apply select_non_number.
      rewrite numbers_cons in H.
      destruct (Py.as_number vy); [right|now left].
      destruct (numbers ly); [discriminate|reflexivity]. }
    pose proof (Hsel Py.Gt) as Hfn. pose proof (Hsel Py.Lt) as Hfs.
    destruct (Py.select Py.Gt vy ly) as [fn|]; simpl; [|discriminate].
    destruct (Py.select Py.Lt vy ly) as [fs|]; simpl; [|discriminate].
    destruct (Py.select Py.Gt vx lx) as [fe|]; simpl; [|discriminate].
    destruct (Py.select Py.Lt vx lx) as [fw|]; simpl; [|discriminate].
    now rewrite (richcmp_non_number_float Py.Le fs (north box) Hfs).
Qed.

Lemma included_flatten box f :
  included box f = true <->
  exists lngs lats, flatten f = Ok (Some (lngs, lats))
                    /\ intersects box lngs lats = Ok true.
Proof.
  unfold included, process. split.
  - destruct (flatten f) as [[[lngs lats]|]|]; try discriminate.
    destruct (intersects box lngs lats) as [[|]|] eqn:Hi; try discriminate.
    intros _. now exists lngs, lats.
  - intros (lngs & lats & -> & ->). reflexivity.
Qed.

(** C1: a feature is in the answer exactly when it is in the collection
    and has a derived bounding box (greatest and least latitude,
    greatest and least longitude) that passes the inclusive overlap
    test against the query box; nothing is assumed of the box, so it may
    be inverted or degenerate. *)
Theorem bbox_query_includes_iff_overlap (box : bbox) (st : store) (f : json) :
  In f (gj_features (get_geojson box st)) <->
  In f (all_features st) /\ exists fb, derived_box f fb /\ overlaps fb box.
Proof.
  rewrite get_geojson_features, filter_In, included_flatten.
  split; intros [Hin H]; (split; [exact Hin|]).
  - destruct H as (jx & jy & Hfl & Hi).
    destruct (numbers jx) as [xs|] eqn:Hx;
      [|exfalso; apply (@intersects_non_number box jx jy); auto].
    destruct (numbers jy) as [ys|] eqn:Hy;
      [|exfalso; apply (@intersects_non_number box jx jy); auto].
    destruct xs as [|x xs].
    { destruct jx; [discriminate Hi|].
      simpl in Hx. destruct (Py.as_number j), (numbers jx); discriminate. }
    destruct ys as [|y ys].
    { destruct jy; [destruct jx; discriminate Hi|].
      simpl in Hy. destruct (Py.as_number j), (numbers jy); discriminate. }
    rewrite (intersects_numbers box _ _ Hx Hy) in Hi.
    injection Hi as Hi. unfold overlap_test in Hi.
    apply andb_prop in Hi as [Hi H4]. apply andb_prop in Hi as [Hi H3].
    apply andb_prop in Hi as [H1 H2].
    exists {| feature_north := Qselect Py.Gt y ys;
              feature_south := Qselect Py.Lt y ys;
              feature_east := Qselect Py.Gt x xs;
              feature_west := Qselect Py.Lt x xs |}.
    split.
    + exists (x :: xs), (y :: ys). simpl.
      unfold coordinates. rewrite Hfl, Hx, Hy.
      repeat split; try apply Qselect_In;
        first [apply Qselect_Gt_is_max | apply Qselect_Lt_is_min].
    + unfold overlaps; simpl. now rewrite <- !Qle_bool_iff.
  - destruct H as (fb & (xs & ys & Hc & Hn & Hs & He & Hw) & H1 & H2 & H3 & H4).
    unfold coordinates in Hc.
    destruct (flatten f) as [[[jx jy]|]|]; try discriminate.
    destruct (numbers jx) as [xs'|] eqn:Hx; [|discriminate].
    destruct (numbers jy) as [ys'|] eqn:Hy; [|discriminate].
    injection Hc as -> ->.
    exists jx, jy. split; [reflexivity|].
    destruct xs as [|x xs]; [destruct He as [[] _]|].
    destruct ys as [|y ys]; [destruct Hn as [[] _]|].
    rewrite (intersects_numbers box _ _ Hx Hy). f_equal.
    unfold overlap_test. rewrite !andb_true_iff, !Qle_bool_iff.
    repeat split.
    + eapply Qle_trans; [|exact H1].
      apply (Qselect_Lt_is_min ys y), Hs.
    + eapply Qle_trans; [exact H2|].
      apply (Qselect_Gt_is_max ys y), Hn.
    + eapply Qle_trans; [|exact H3].
      apply (Qselect_Lt_is_min xs x), Hw.
    + eapply Qle_trans; [exact H4|].
      apply (Qselect_Gt_is_max xs x), He.
Qed.

(** ** Flattening by geometry type *)

Lemma eq_str tag s : Py.eq tag (JStr s) = true <-> tag = JStr s.
Proof.
  destruct tag; simpl; split; intros H; try discriminate.
  - apply String.eqb_eq in H. now subst.
  - injection H as ->. apply String.eqb_refl.
Qed.

Lemma eq_str_false tag s : tag <> JStr s -> Py.eq tag (JStr s) = false.
Proof.
  intros H. destruct (Py.eq tag (JStr s)) eqn:E; [|reflexivity].
  apply eq_str in E. contradiction.
Qed.

Lemma items_at_0_points ps : Py.items_at 0 (map point ps) = Ok (lngs_of ps).
Proof.
  induction ps as [|p ps IH]; simpl; [reflexivity|]. now rewrite IH.
Qed.

Lemma items_at_1_points ps : Py.items_at 1 (map point ps) = Ok (lats_of ps).
Proof.
  induction ps as [|p ps IH]; simpl; [reflexivity|]. now rewrite IH.
Qed.

Lemma extend_lines_lines lines : forall lngs lats,
  extend_lines (map line lines) lngs lats =
  Ok (lngs ++ lngs_of (List.concat lines), lats ++ lats_of (List.concat lines)).
Proof.
  induction lines as [|ps lines IH]; intros lngs lats; simpl.
  - now rewrite !app_nil_r.
  - unfold Py.comprehension; simpl.
    rewrite items_at_0_points, items_at_1_points; simpl.
    rewrite IH. unfold lngs_of, lats_of.
    now rewrite !map_app, !app_assoc.
Qed.

Lemma not_included_not_returned box st f :
  included box f = false -> ~ In f (gj_features (get_geojson box st)).
Proof.
  intros H Hin. rewrite get_geojson_features in Hin.
  apply filter_In in Hin as [_ Hin]. congruence.
Qed.

Lemma skipped_not_returned box st f :
  process box f = Skipped -> ~ In f (gj_features (get_geojson box st)).
Proof.
  intros H. apply not_included_not_returned. unfold included. now rewrite H.
Qed.

Lemma flatten_has_geometry f tag coords :
  has_geometry f tag coords ->
  flatten f =
  if Py.eq tag (JStr "LineString") then
    lngs <- Py.comprehension 0 coords ;;
    lats <- Py.comprehension 1 coords ;;
    Ok (Some (lngs, lats))
  else if Py.eq tag (JStr "MultiLineString") then
    lines <- Py.iter coords ;;
    ll <- extend_lines lines [] [] ;;
    Ok (Some ll)
  else if Py.eq tag (JStr "Polygon") then
    nonempty <- (if Py.truthy coords
                 then n <- Py.len coords ;; Ok (0 <? n)%nat
                 else Ok false) ;;
    if nonempty then
      ring <- Py.index coords 0 ;;
      lngs <- Py.comprehension 0 ring ;;
      lats <- Py.comprehension 1 ring ;;
      Ok (Some (lngs, lats))
    else Ok None
  else Ok None.
Proof.
  intros (g & Hg & Hc & Ht). unfold flatten. now rewrite Hg; simpl; rewrite Hc; simpl; rewrite Ht.
Qed.

(** C2: with the type tag and the coordinates of the feature's geometry
    at hand, a LineString gives the longitudes and latitudes of its
    points, a MultiLineString those of all its lines one after the
    other, a Polygon those of ring 0 whatever the other rings are; a
    Polygon without rings, a feature with any other tag, and a feature
    whose longitude or latitude list is empty end the loop body by
    [continue], raising nothing, and are not in the answer. *)
Theorem flatten_by_geometry_type (f tag coords : json)
    (H : has_geometry f tag coords) :
  (forall ps, tag = JStr "LineString" -> coords = line ps ->
     flatten f = Ok (Some (lngs_of ps, lats_of ps)))
  /\ (forall lines, tag = JStr "MultiLineString" -> coords = JList (map line lines) ->
        flatten f = Ok (Some (lngs_of (List.concat lines), lats_of (List.concat lines))))
  /\ (forall ring rings, tag = JStr "Polygon" -> coords = JList (line ring :: rings) ->
        flatten f = Ok (Some (lngs_of ring, lats_of ring)))
  /\ (forall box st, tag = JStr "Polygon" -> coords = JList [] ->
        process box f = Skipped /\ ~ In f (gj_features (get_geojson box st)))
  /\ (forall box st, ~ supported_tag tag ->
        process box f = Skipped /\ ~ In f (gj_features (get_geojson box st)))
  /\ (forall box st lngs lats,
        flatten f = Ok (Some (lngs, lats)) -> lngs = [] \/ lats = [] ->
        process box f = Skipped /\ ~ In f (gj_features (get_geojson box st))).
Proof.
  pose proof (flatten_has_geometry H) as Hfl.
  repeat split.
  - intros ps -> ->. rewrite Hfl; simpl.
    unfold Py.comprehension; simpl.
    now rewrite items_at_0_points, items_at_1_points.
  - intros lines -> ->. rewrite Hfl; simpl.
    now rewrite extend_lines_lines.
  - intros ring rings -> ->. rewrite Hfl; simpl.
    unfold Py.comprehension; simpl.
    now rewrite items_at_0_points, items_at_1_points.
  - unfold process. now rewrite Hfl; subst.
  - apply skipped_not_returned. unfold process. now rewrite Hfl; subst.
  - unfold process. rewrite Hfl.
    rewrite !eq_str_false; [reflexivity| | |];
      intros E; apply H0; unfold supported_tag; auto.
  - apply skipped_not_returned. unfold process. rewrite Hfl.
    rewrite !eq_str_false; [reflexivity| | |];
      intros E; apply H0; unfold supported_tag; auto.
  - unfold process. rewrite H0.
    destruct H1 as [-> | ->]; [reflexivity | now destruct lngs].
  - apply skipped_not_returned. unfold process. rewrite H0.
    destruct H1 as [-> | ->]; [reflexivity | now destruct lngs].
Qed.

(** ** Malformed features *)

Lemma not_object_raises f :
  (forall d, f <> JDict d) -> flatten f = Raise AttributeError.
Proof.
  intros H. destruct f; try reflexivity. now destruct (H fields).
Qed.

Lemma geometry_not_object_raises d g :
  Py.dict_lookup "geometry" d = Some g -> (forall gd, g <> JDict gd) ->
  flatten (JDict d) = Raise AttributeError.
Proof.
  intros Hg H. unfold flatten; simpl. rewrite Hg; simpl.
  destruct g; try reflexivity. now destruct (H fields).
Qed.

Lemma short_point_raises d gd x :
  Py.dict_lookup "geometry" d = Some (JDict gd) ->
  Py.dict_lookup "type" gd = Some (JStr "LineString") ->
  Py.dict_lookup "coordinates" gd = Some (JList [JList [x]]) ->
  flatten (JDict d) = Raise IndexError.
Proof.
  intros Hg Ht Hc. unfold flatten; simpl.
  rewrite Hg; simpl. rewrite Hc, Ht. reflexivity.
Qed.

Lemma malformed_not_appended box f : malformed f -> process box f <> Appended.
Proof.
  intros [e He | lngs lats Hfl Hn | d -> Hd]; unfold process.
  - now rewrite He.
  - rewrite Hfl.
    pose proof (@intersects_non_number box lngs lats Hn) as Hi.
    destruct (intersects box lngs lats) as [[|]|]; congruence.
  - destruct Hd as [Hg | (gd & Hg & [Ht | Hc])].
    + unfold flatten; simpl. rewrite Hg. discriminate.
    + unfold flatten; simpl. rewrite Hg; simpl. rewrite Ht.
      destruct (Py.dict_lookup "coordinates" gd); discriminate.
    + assert (Hgeo : exists tag, has_geometry (JDict d) tag (JList [])).
      { destruct (Py.dict_lookup "type" gd) as [t|] eqn:Ht;
          [exists t | exists (JStr "")];
          exists (JDict gd); simpl; now rewrite Hg, Hc, Ht. }
      destruct Hgeo as [tag Hgeo].
      rewrite (flatten_has_geometry Hgeo).
      destruct (Py.eq tag (JStr "LineString")); [discriminate|].
      destruct (Py.eq tag (JStr "MultiLineString")); [discriminate|].
      destruct (Py.eq tag (JStr "Polygon")); discriminate.
Qed.

(** C5: a malformed feature is not appended and is not in the answer,
    and the answer on a collection that contains it is the answer on
    the collection without it: the query goes on with the next feature,
    and every other feature is kept or left out as before. *)
Theorem malformed_feature_is_skipped (box : bbox) (pre post : list json) (f : json)
    (H : malformed f) :
  process box f <> Appended
  /\ ~ In f (gj_features (get_geojson box {| all_features := pre ++ f :: post |}))
  /\ gj_features (get_geojson box {| all_features := pre ++ f :: post |})
     = gj_features (get_geojson box {| all_features := pre ++ post |}).
Proof.
  pose proof (malformed_not_appended box H) as Hp.
  assert (Hi : included box f = false).
  { unfold included. destruct (process box f); congruence. }
  split; [exact Hp|].
  split; [now apply not_included_not_returned|].
  rewrite !get_geojson_features; simpl.
  rewrite !filter_app; simpl. now rewrite Hi.
Qed.

(** ** Loading and reloading *)

Lemma load_file_extends fs st file_path :
  exists rest, all_features (load_file fs st file_path) = all_features st ++ rest.
Proof.
  unfold load_file.
  destruct (exists_ fs file_path); [|exists []; now rewrite app_nil_r].
  destruct (read_features fs file_path) as [features|e].
  - now exists features.
  - exists []. now rewrite app_nil_r.
Qed.

Lemma load_from_extends fs files : forall st,
  exists rest, all_features (load_from fs files st) = all_features st ++ rest.
Proof.
  unfold load_from.
  induction files as [|p files IH]; intros st; simpl.
  - exists []. now rewrite app_nil_r.
  - destruct (IH (load_file fs st p)) as [r1 H1].
    destruct (load_file_extends fs st p) as [r2 H2].
    exists (r2 ++ r1). now rewrite H1, H2, app_assoc.
Qed.

Lemma published_from_prefix fs files : forall st s,
  In s (published_from fs files st) ->
  exists rest, all_features (load_from fs files st) = all_features s ++ rest.
Proof.
  induction files as [|p files IH]; intros st s Hin.
  - destruct Hin as [<-|[]]. exists []. simpl. now rewrite app_nil_r.
  - destruct Hin as [<-|Hin].
    + apply load_from_extends.
    + apply (IH _ _ Hin).
Qed.

Lemma published_from_last fs files : forall st d,
  last (published_from fs files st) d = load_from fs files st.
Proof.
  induction files as [|p files IH]; intros st d; [reflexivity|].
  change (published_from fs (p :: files) st)
    with (st :: published_from fs files (load_file fs st p)).
  change (load_from fs (p :: files) st)
    with (load_from fs files (load_file fs st p)).
  rewrite <- (IH (load_file fs st p) d).
  destruct files; reflexivity.
Qed.

Lemma published_from_nth fs files : forall st k,
  (k <= List.length files)%nat ->
  nth_error (published_from fs files st) k = Some (load_from fs (firstn k files) st).
Proof.
  induction files as [|p files IH]; intros st k Hk.
  - simpl in Hk. assert (k = 0%nat) as -> by lia. reflexivity.
  - destruct k as [|k]; [reflexivity|].
    simpl in Hk. simpl. apply IH. lia.
Qed.


Lemma load_skips_missing_source fs st file_path :
  exists_ fs file_path = false -> load_file fs st file_path = st.
Proof. intros H. unfold load_file. now rewrite H. Qed.

(** C4, as the code has it: [load_all_features] first rebinds the global
    to an empty list and then extends that same list in place, source
    after source.  So the first value a reader can see is the empty
    collection, the value after [k] sources is what those [k] sources
    gave, every value seen is a prefix of the final collection, and the
    last one is the final collection. *)
Theorem reload_publishes_growing_prefixes (fs : filesystem) (st : store) :
  hd_error (published fs) = Some {| all_features := [] |}
  /\ (forall k, (k <= List.length geojson_files)%nat ->
        nth_error (published fs) k
        = Some (load_from fs (firstn k geojson_files) {| all_features := [] |}))
  /\ (forall s, In s (published fs) ->
        exists rest, all_features (load_all_features fs st) = all_features s ++ rest)
  /\ last (published fs) st = load_all_features fs st.
Proof.
  split; [reflexivity|].
  split; [intros k Hk; now apply published_from_nth|].
  split; [intros s Hs; now apply published_from_prefix|].
  apply published_from_last.
Qed.

(** C9: a reload on the same files gives the collection the previous
    reload gave, item for item, and reports the same count. *)
Theorem reload_is_idempotent (fs : filesystem) (st : store) :
  let once := reload_features fs st in
  let twice := reload_features fs (fst once) in
  all_features (fst twice) = all_features (fst once)
  /\ List.length (all_features (fst twice)) = List.length (all_features (fst once))
  /\ rl_total_features (snd twice) = rl_total_features (snd once).
Proof. repeat split. Qed.

(** ** Counts of files *)

Lemma filter_length_zero {A : Type} (p : A -> bool) (l : list A) :
  List.length (filter p l) = 0%nat <-> forall x, In x l -> p x = false.
Proof.
  induction l as [|a l IH]; simpl.
  - split; [intros _ x [] | reflexivity].
  - destruct (p a) eqn:Ha; simpl.
    + split; [discriminate|]. intros H. specialize (H a (or_introl eq_refl)). congruence.
    + rewrite IH. split.
      * intros H x [<-|Hx]; auto.
      * intros H x Hx. apply H. now right.
Qed.

(** C8: the status is "error" exactly when none of the configured files
    is on disk, and "healthy" otherwise; the loaded collection plays no
    part in it. *)
Theorem health_status_reflects_files (fs : filesystem) (st : store) :
  (status (health fs st) = "error"
   <-> forall p, In p geojson_files -> exists_ fs p = false)
  /\ (status (health fs st) = "healthy"
      <-> exists p, In p geojson_files /\ exists_ fs p = true)
  /\ (forall st', status (health fs st') = status (health fs st))
  /\ features_loaded (health fs st) = List.length (all_features st).
Proof.
  unfold health, files_on_disk; cbn [status features_loaded].
  generalize geojson_files; intros files.
  pose proof (filter_length_zero (exists_ fs) files) as Hz.
  repeat split.
  - intros H. apply Hz.
    destruct (List.length (filter (exists_ fs) files)); [reflexivity|discriminate].
  - intros H. apply Hz in H. now rewrite H.
  - intros H.
    destruct (filter (exists_ fs) files) as [|p l] eqn:E; [discriminate|].
    exists p. apply filter_In. rewrite E. now left.
  - intros (p & Hin & Hp).
    destruct (List.length (filter (exists_ fs) files)); [|reflexivity].
    destruct Hz as [Hz _]. specialize (Hz eq_refl p Hin). congruence.
Qed.


(** ** Colour statistics *)

Lemma count_color_typed f a b c d e :
  stats_typed f = true ->
  count_color (five a b c d e) f =
  Ok (five (bump "red" (bucket f) + a) (bump "blue" (bucket f) + b)
           (bump "yellow" (bucket f) + c) (bump "green" (bucket f) + d)
           (bump "unknown" (bucket f) + e)).
Proof.
  intros Ht. destruct f as [| | | | |fd]; try discriminate.
  unfold count_color, bucket, color_of, stats_typed in *. simpl.
  destruct (Py.dict_lookup "properties" fd) as [[| | | | |pd]|]; try discriminate;
    [|reflexivity].
  simpl.
  destruct (Py.dict_lookup "color" pd) as [[|bb|q|s| |]|]; try discriminate;
    try reflexivity.
  simpl.
  destruct (String.eqb s "red") eqn:E1;
    [apply String.eqb_eq in E1; subst; reflexivity|].
  destruct (String.eqb s "blue") eqn:E2;
    [apply String.eqb_eq in E2; subst; reflexivity|].
  destruct (String.eqb s "yellow") eqn:E3;
    [apply String.eqb_eq in E3; subst; reflexivity|].
  destruct (String.eqb s "green") eqn:E4;
    [apply String.eqb_eq in E4; subst; reflexivity|].
  destruct (String.eqb s "unknown") eqn:E5;
    [apply String.eqb_eq in E5; subst; reflexivity|].
  reflexivity.
Qed.

Lemma tally_cons c f l : tally c (f :: l) = (bump c (bucket f) + tally c l)%nat.
Proof.
  unfold tally, bump; simpl. now destruct (String.eqb (bucket f) c).
Qed.

Lemma count_colors_typed l : forall a b c d e,
  forallb stats_typed l = true ->
  count_colors (five a b c d e) l =
  Ok (five (tally "red" l + a) (tally "blue" l + b) (tally "yellow" l + c)
           (tally "green" l + d) (tally "unknown" l + e)).
Proof.
  induction l as [|f l IH]; intros a b c d e Ht; [reflexivity|].
  simpl in Ht. apply andb_prop in Ht as [Hf Hl].
  simpl. rewrite (count_color_typed _ _ _ _ _ _ Hf); simpl.
  rewrite (IH _ _ _ _ _ Hl), !tally_cons.
  unfold five. f_equal.
  repeat match goal with
         | |- (_, _) :: _ = (_, _) :: _ => f_equal; [f_equal; lia|]
         end.
  do 2 f_equal. lia.
Qed.

Lemma bucket_bumps f :
  (bump "red" (bucket f) + bump "blue" (bucket f) + bump "yellow" (bucket f)
   + bump "green" (bucket f) + bump "unknown" (bucket f) = 1)%nat.
Proof.
  unfold bucket. destruct (color_of f) as [[| | |s| |]|]; try reflexivity.
  unfold known_colors, existsb.
  destruct (String.eqb s "red") eqn:E1;
    [apply String.eqb_eq in E1; subst; reflexivity|].
  destruct (String.eqb s "blue") eqn:E2;
    [apply String.eqb_eq in E2; subst; reflexivity|].
  destruct (String.eqb s "yellow") eqn:E3;
    [apply String.eqb_eq in E3; subst; reflexivity|].
  destruct (String.eqb s "green") eqn:E4;
    [apply String.eqb_eq in E4; subst; reflexivity|].
  reflexivity.
Qed.

Lemma tallies_sum l :
  (tally "red" l + tally "blue" l + tally "yellow" l + tally "green" l
   + tally "unknown" l = List.length l)%nat.
Proof.
  induction l as [|f l IH]; [reflexivity|].
  rewrite !tally_cons. pose proof (bucket_bumps f). simpl. lia.
Qed.

(** On a collection of features shaped as the data model says, the
    statistics return; each of the four known colours counts the
    features of that colour, "unknown" counts the features whose colour
    is absent or is none of the four, and the five counts add up to
    [total_features]. *)
Theorem color_counts_tally_buckets (fs : filesystem) (st : store)
    (H : forallb stats_typed (all_features st) = true) :
  exists r,
    get_stats fs st = Ok r
    /\ color_distribution r =
       [("red", tally "red" (all_features st));
        ("blue", tally "blue" (all_features st));
        ("yellow", tally "yellow" (all_features st));
        ("green", tally "green" (all_features st));
        ("unknown", tally "unknown" (all_features st))]
    /\ st_total_features r = List.length (all_features st)
    /\ (tally "red" (all_features st) + tally "blue" (all_features st)
        + tally "yellow" (all_features st) + tally "green" (all_features st)
        + tally "unknown" (all_features st) = st_total_features r)%nat.
Proof.
  unfold get_stats.
  change color_counts0 with (five 0 0 0 0 0).
  rewrite (count_colors_typed _ _ _ _ _ _ H); simpl.
  eexists; split; [reflexivity|]. simpl.
  split; [unfold five; now rewrite !Nat.add_0_r|].
  split; [reflexivity | apply tallies_sum].
Qed.

Lemma count_colors_null_properties pre post : forall a b c d e,
  forallb stats_typed pre = true ->
  count_colors (five a b c d e) (pre ++ null_properties_feature :: post)
  = Raise AttributeError.
Proof.
  induction pre as [|f pre IH]; intros a b c d e Hpre; [reflexivity|].
  simpl in Hpre. apply andb_prop in Hpre as [Hf Hpre].
  simpl. rewrite (count_color_typed _ _ _ _ _ _ Hf); simpl.
  now apply IH.
Qed.

Lemma get_stats_null_properties (fs : filesystem) (pre post : list json) :
  forallb stats_typed pre = true ->
  get_stats fs {| all_features := pre ++ null_properties_feature :: post |}
  = Raise AttributeError.
Proof.
  intros Hpre. unfold get_stats.
  change color_counts0 with (five 0 0 0 0 0). cbn [all_features].
  now rewrite count_colors_null_properties.
Qed.

(** C6: [get_stats] has no [try] around its loop body; on a collection
    with a feature whose [properties] is null the call of [.get] on
    [None] raises and the exception leaves the endpoint, while
    [get_geojson] on the same collection answers and keeps or skips the
    feature by its geometry alone. *)
Theorem get_stats_raises_on_null_properties (fs : filesystem) :
  get_stats fs {| all_features := [null_properties_feature] |} = Raise AttributeError
  /\ gj_features
       (get_geojson {| north := 25; south := 15; east := 15; west := 5 |}
                    {| all_features := [null_properties_feature] |})
     = [null_properties_feature].
Proof. split; reflexivity. Qed.

(** C7: a feature with [properties: null] has no colour and a feature
    whose [color] is a list has a colour outside the four, so both
    belong under "unknown"; [get_stats] counts neither: on a collection
    that holds one of them it raises instead of returning the five
    counts, although the roads before it are counted as they should. *)
Theorem get_stats_raises_where_unknown_is_due (fs : filesystem) :
  bucket null_properties_feature = "unknown"
  /\ color_of null_properties_feature = None
  /\ get_stats fs {| all_features := [road_a; null_properties_feature; road_b] |}
     = Raise AttributeError
  /\ bucket list_color_feature = "unknown"
  /\ color_of list_color_feature = Some (JList [JStr "red"])
  /\ get_stats fs {| all_features := [road_a; list_color_feature; road_b] |}
     = Raise TypeError
  /\ exists r, get_stats fs {| all_features := [road_a; road_b] |} = Ok r
               /\ color_distribution r
                  = [("red", 1); ("blue", 1); ("yellow", 0); ("green", 0);
                     ("unknown", 0)]%nat.
Proof.
  repeat (split; [reflexivity|]).
  eexists. split; reflexivity.
Qed.

(** ** Examples *)

(** The examples of the specification: the road with coordinates
    [[10,20],[12,22]] is returned for the box 25/15/15/5 and not for the
    box 10/0/5/0. *)
Example linestring_inside_box :
  gj_features (get_geojson {| north := 25; south := 15; east := 15; west := 5 |}
                           {| all_features := [road_a] |}) = [road_a].
Proof. reflexivity. Qed.

Example linestring_outside_box :
  gj_features (get_geojson {| north := 10; south := 0; east := 5; west := 0 |}
                           {| all_features := [road_a] |}) = [].
Proof. reflexivity. Qed.

(** An inverted box (north below south) still returns a feature whose
    latitudes span it. *)
Example inverted_box_can_match :
  gj_features (get_geojson {| north := 15; south := 25; east := 15; west := 5 |}
                           {| all_features := [road "red" [(10, 10); (12, 30)]%Q] |})
  = [road "red" [(10, 10); (12, 30)]%Q].
Proof. reflexivity. Qed.

(** While the two sources are loaded over a collection that held
    [road_old], the global holds [[road_a]] after the first source:
    neither the old collection nor the new one. *)
Lemma reload_exposes_partial_collection :
  ~ reload_is_atomic_swap two_files {| all_features := [road_old] |}.
Proof.
  intros H.
  destruct (H {| all_features := [road_a] |}) as [E|E].
  - right; left; reflexivity.
  - discriminate E.
  - discriminate E.
Qed.

Lemma reload_publishes_growing_prefixes_witness :
  nth_error (published two_files) 1 = Some {| all_features := [road_a] |}
  /\ last (published two_files) {| all_features := [road_old] |}
     = {| all_features := [road_a; road_b] |}.
Proof.
  pose proof (reload_publishes_growing_prefixes two_files
                {| all_features := [road_old] |}) as (_ & Hk & _ & Hlast).
  split.
  - apply (Hk 1%nat). simpl. lia.
  - exact Hlast.
Defined.

Lemma flatten_by_geometry_type_witness :
  has_geometry road_a (JStr "LineString") (line [(10, 20); (12, 22)]%Q)
  /\ flatten road_a = Ok (Some ([JNum 10; JNum 12], [JNum 20; JNum 22])).
Proof.
  assert (Hgeo : has_geometry road_a (JStr "LineString") (line [(10, 20); (12, 22)]%Q)).
  { eexists. repeat split; reflexivity. }
  split; [exact Hgeo|].
  exact (proj1 (flatten_by_geometry_type Hgeo) [(10, 20); (12, 22)]%Q eq_refl eq_refl).
Defined.

Lemma malformed_feature_is_skipped_witness :
  malformed short_point_feature
  /\ gj_features
       (get_geojson {| north := 25; south := 15; east := 15; west := 5 |}
                    {| all_features := [road_a] ++ short_point_feature :: [road_b] |})
     = gj_features
         (get_geojson {| north := 25; south := 15; east := 15; west := 5 |}
                      {| all_features := [road_a] ++ [road_b] |}).
Proof.
  assert (Hm : malformed short_point_feature).
  { apply structural_error with (e := IndexError). reflexivity. }
  split; [exact Hm|].
  exact (proj2 (proj2 (malformed_feature_is_skipped
                         {| north := 25; south := 15; east := 15; west := 5 |}
                         [road_a] [road_b] Hm))).
Defined.

Lemma color_counts_tally_buckets_witness :
  forallb stats_typed [road_a; road_b; road_old] = true
  /\ exists r,
       get_stats two_files {| all_features := [road_a; road_b; road_old] |} = Ok r
       /\ color_distribution r =
          [("red", 1); ("blue", 1); ("yellow", 0); ("green", 0); ("unknown", 1)]%nat.
Proof.
  split; [reflexivity|].
  destruct (color_counts_tally_buckets two_files
              {| all_features := [road_a; road_b; road_old] |} eq_refl)
    as (r & Hr & Hd & _).
  exists r. split; [exact Hr | exact Hd].
Defined.

(** All sources absent while the collection still holds a road: the
    status is "error". *)
Lemma health_status_reflects_files_witness :
  status (health no_files {| all_features := [road_old] |}) = "error".
Proof.
  apply (proj2 (proj1 (health_status_reflects_files no_files
                         {| all_features := [road_old] |}))).
  intros p _. reflexivity.
Defined.


(** ** Further properties of the loader *)

Lemma load_file_source fs st file_path :
  load_file fs st file_path
  = {| all_features := all_features st ++ source_features fs file_path |}.
Proof.
  unfold load_file, source_features. destruct st as [l]; simpl.
  destruct (exists_ fs file_path); [|now rewrite app_nil_r].
  destruct (read_features fs file_path); [reflexivity | now rewrite app_nil_r].
Qed.

Lemma load_from_concat fs files : forall st,
  load_from fs files st
  = {| all_features := all_features st ++ List.concat (map (source_features fs) files) |}.
Proof.
  unfold load_from.
  induction files as [|p files IH]; intros st; simpl.
  - destruct st; simpl. now rewrite app_nil_r.
  - rewrite IH, load_file_source; simpl. now rewrite app_assoc.
Qed.

(** X1: After a load the collection is what the sources give, one source
    after the other in the configured order, whatever the collection
    held before; an item is in it exactly when a configured file that
    is on disk has it in its [features]. *)
Theorem load_concatenates_sources_in_order (fs : filesystem) (st : store) :
  all_features (load_all_features fs st)
  = List.concat (map (source_features fs) geojson_files)
  /\ List.length (all_features (load_all_features fs st))
     = list_sum (map (fun p => List.length (source_features fs p)) geojson_files)
  /\ forall f,
       In f (all_features (load_all_features fs st))
       <-> exists file_path features,
             In file_path geojson_files /\ exists_ fs file_path = true
             /\ read_features fs file_path = Ok features /\ In f features.
Proof.
  unfold load_all_features. rewrite load_from_concat; cbn [all_features app].
  generalize geojson_files; intros files.
  split; [reflexivity|]. split.
  - induction files as [|p files IH]; [reflexivity|].
    simpl. now rewrite length_app, IH.
  - intros f. rewrite in_concat. split.
    + intros (l & Hl & Hf). apply in_map_iff in Hl as (p & <- & Hp).
      unfold source_features in Hf.
      destruct (exists_ fs p) eqn:He; [|destruct Hf].
      destruct (read_features fs p) as [features|] eqn:Hr; [|destruct Hf].
      now exists p, features.
    + intros (p & features & Hp & He & Hr & Hf).
      exists (source_features fs p). split; [now apply in_map|].
      unfold source_features. now rewrite He, Hr.
Qed.

Lemma barren_source fs file_path :
  barren fs file_path -> source_features fs file_path = [].
Proof.
  unfold source_features, exists_, read_features, read_json.
  intros [H | [(e & H) | [(v & H & Hv) | (d & H & Hd)]]]; rewrite H; simpl;
    try reflexivity.
  - destruct v; try reflexivity. now destruct (Hv fields).
  - now rewrite Hd.
Qed.

Lemma source_features_without fs file_path q :
  source_features (without file_path fs) q
  = if String.eqb q file_path then [] else source_features fs q.
Proof.
  unfold source_features, without, exists_, read_features, read_json.
  now destruct (String.eqb q file_path).
Qed.

(** X2: A source that is unreadable, is not JSON, is not an object or has no
    [features] field leaves the collection as if the file were not on
    disk: the load with it and the load without it give the same
    collection. *)
Theorem barren_source_is_as_if_absent (fs : filesystem) (st : store)
    (file_path : string) (H : barren fs file_path) :
  load_all_features fs st = load_all_features (without file_path fs) st.
Proof.
  unfold load_all_features. rewrite !load_from_concat. cbn [all_features app].
  do 2 f_equal. apply map_ext. intros q. rewrite source_features_without.
  destruct (String.eqb_spec q file_path) as [->|]; [|reflexivity].
  now apply barren_source.
Qed.

(** X3: Right after a reload the health check and the collection agree: a
    status "error" means the collection is empty, so a collection with
    features means "healthy". *)
Theorem health_error_after_reload_means_empty (fs : filesystem) (st : store) :
  let st' := fst (reload_features fs st) in
  status (health fs st') = "error" ->
  all_features st' = [] /\ rl_total_features (snd (reload_features fs st)) = 0%nat.
Proof.
  intros st' H. unfold st' in *. cbn [reload_features fst snd rl_total_features] in *.
  assert (Hnone : forall p, In p geojson_files -> exists_ fs p = false).
  { unfold health, files_on_disk in H; cbn [status] in H.
    apply filter_length_zero.
    destruct (List.length (filter (exists_ fs) geojson_files)); [reflexivity|discriminate]. }
  assert (He : all_features (load_all_features fs st) = []).
  { unfold load_all_features. rewrite load_from_concat; cbn [all_features app].
    revert Hnone. generalize geojson_files; intros files Hnone.
    induction files as [|p files IH]; [reflexivity|].
    simpl. unfold source_features at 1. rewrite (Hnone p (or_introl eq_refl)).
    apply IH. intros q Hq. apply Hnone. now right. }
  split; [exact He | now rewrite He].
Qed.

Lemma filter_length_bound {A : Type} (p : A -> bool) (l : list A) :
  (List.length (filter p l) <= List.length l)%nat.
Proof.
  induction l as [|a l IH]; simpl; [lia|]. destruct (p a); simpl; lia.
Qed.

(** X4: The counts the endpoints report stay within their totals: no more
    files on disk than the six configured, no more features in the box
    than searched. *)
Theorem reported_counts_are_bounded (fs : filesystem) (st : store) (box : bbox) :
  (rl_files_loaded (snd (reload_features fs st))
   <= files_attempted (snd (reload_features fs st)))%nat
  /\ files_attempted (snd (reload_features fs st)) = 6%nat
  /\ (files_available (health fs st) <= files_configured (health fs st))%nat
  /\ (fs_available (root fs st) <= fs_configured (root fs st))%nat
  /\ (total_in_bbox (get_geojson box st) <= total_searched (get_geojson box st))%nat.
Proof.
  pose proof (filter_length_bound (exists_ fs) geojson_files) as Hb.
  split; [exact Hb|]. split; [reflexivity|].
  split; [exact Hb|]. split; [exact Hb|].
  unfold get_geojson; cbn [total_in_bbox total_searched].
  rewrite fold_filter_step. apply filter_length_bound.
Qed.

(** After a reload every endpoint reports the same collection size and
    the same file counts as the reload did. *)
Theorem endpoints_agree_after_reload (fs : filesystem) (st : store) (box : bbox) :
  let st' := fst (reload_features fs st) in
  let total := rl_total_features (snd (reload_features fs st)) in
  let loaded := rl_files_loaded (snd (reload_features fs st)) in
  features_loaded (health fs st') = total
  /\ fs_features_loaded (root fs st') = total
  /\ ga_total_features (get_all_geojson st') = total
  /\ total_searched (get_geojson box st') = total
  /\ (forall r, get_stats fs st' = Ok r ->
        st_total_features r = total /\ st_files_loaded r = loaded)
  /\ files_available (health fs st') = loaded
  /\ fs_available (root fs st') = loaded.
Proof.
  intros st' total loaded. repeat split.
  - unfold get_stats in H.
    destruct (count_colors color_counts0 (all_features st')); simpl in H; [|discriminate].
    now injection H as <-.
  - unfold get_stats in H.
    destruct (count_colors color_counts0 (all_features st')); simpl in H; [|discriminate].
    now injection H as <-.
Qed.

(** ** Further properties of the query *)

Lemma numbers_nil_inv l : numbers l = Some [] -> l = [].
Proof.
  destruct l as [|v l]; [reflexivity|]. simpl.
  destruct (Py.as_number v), (numbers l); discriminate.
Qed.

(** A feature passes exactly when its coordinates are numbers, there is
    at least one point, and the four comparisons hold on the bounds
    [max] and [min] select. *)
Lemma included_numbers box f :
  included box f = true <->
  exists x xs y ys,
    coordinates f = Some (x :: xs, y :: ys)
    /\ overlap_test box (Qselect Py.Gt y ys) (Qselect Py.Lt y ys)
                        (Qselect Py.Gt x xs) (Qselect Py.Lt x xs) = true.
Proof.
  rewrite included_flatten. unfold coordinates. split.
  - intros (jx & jy & Hfl & Hi). rewrite Hfl.
    destruct (numbers jx) as [xs|] eqn:Hx;
      [|exfalso; apply (@intersects_non_number box jx jy); auto].
    destruct (numbers jy) as [ys|] eqn:Hy;
      [|exfalso; apply (@intersects_non_number box jx jy); auto].
    destruct xs as [|x xs].
    { apply numbers_nil_inv in Hx. subst jx. discriminate Hi. }
    destruct ys as [|y ys].
    { apply numbers_nil_inv in Hy. subst jy. destruct jx; discriminate Hi. }
    rewrite (intersects_numbers box _ _ Hx Hy) in Hi. injection Hi as Hi.
    now exists x, xs, y, ys.
  - intros (x & xs & y & ys & Hc & Ht).
    destruct (flatten f) as [[[jx jy]|]|]; try discriminate.
    destruct (numbers jx) as [xs'|] eqn:Hx; [|discriminate].
    destruct (numbers jy) as [ys'|] eqn:Hy; [|discriminate].
    injection Hc as -> ->. exists jx, jy. split; [reflexivity|].
    now rewrite (intersects_numbers box _ _ Hx Hy), Ht.
Qed.

Lemma unsupported_tag_skipped box f tag coords :
  has_geometry f tag coords -> ~ supported_tag tag -> process box f = Skipped.
Proof.
  intros Hg Hn. unfold process. rewrite (flatten_has_geometry Hg).
  rewrite !eq_str_false; [reflexivity| | |];
    intros E; apply Hn; unfold supported_tag; auto.
Qed.

(** X5: [/geojson/all] hands out the collection as it is, and every answer
    of the box query is a subsequence of it; a feature of a geometry
    type other than the three supported ones is in the former and in no
    answer of the latter. *)
Theorem all_endpoint_keeps_what_the_query_drops (st : store) (f tag coords : json)
    (Hin : In f (all_features st)) (Hg : has_geometry f tag coords)
    (Hn : ~ supported_tag tag) :
  ga_features (get_all_geojson st) = all_features st
  /\ In f (ga_features (get_all_geojson st))
  /\ forall box,
       ~ In f (gj_features (get_geojson box st))
       /\ subseq (gj_features (get_geojson box st)) (ga_features (get_all_geojson st)).
Proof.
  split; [reflexivity|]. split; [exact Hin|].
  intros box. split.
  - apply skipped_not_returned. now apply unsupported_tag_skipped with tag coords.
  - rewrite get_geojson_features. apply filter_subseq.
Qed.

Lemma filter_idem {A : Type} (p : A -> bool) (l : list A) :
  filter p (filter p l) = filter p l.
Proof.
  induction l as [|a l IH]; [reflexivity|]. simpl.
  destruct (p a) eqn:Ha; simpl; [rewrite Ha; now f_equal | exact IH].
Qed.

(** X6: The query treats each feature on its own: the answer on two
    collections put end to end is the two answers put end to end, and
    asking again on an answer with the same box gives that answer
    back. *)
Theorem query_is_featurewise (box : bbox) (l1 l2 : list json) :
  gj_features (get_geojson box {| all_features := l1 ++ l2 |})
  = gj_features (get_geojson box {| all_features := l1 |})
    ++ gj_features (get_geojson box {| all_features := l2 |})
  /\ total_in_bbox (get_geojson box {| all_features := l1 ++ l2 |})
     = (total_in_bbox (get_geojson box {| all_features := l1 |})
        + total_in_bbox (get_geojson box {| all_features := l2 |}))%nat
  /\ gj_features
       (get_geojson box
          {| all_features := gj_features (get_geojson box {| all_features := l1 |}) |})
     = gj_features (get_geojson box {| all_features := l1 |}).
Proof.
  unfold get_geojson; cbn [gj_features total_in_bbox all_features].
  rewrite !fold_filter_step; cbn [app].
  rewrite filter_app, length_app, filter_idem. repeat split.
Qed.

Lemma overlap_test_inside inner outer fn fs fe fw :
  inside inner outer ->
  overlap_test inner fn fs fe fw = true -> overlap_test outer fn fs fe fw = true.
Proof.
  intros (Hn & Hs & He & Hw). unfold overlap_test.
  rewrite !andb_true_iff, !Qle_bool_iff.
  intros [[[H1 H2] H3] H4]. repeat split; eauto using Qle_trans.
Qed.

Lemma filter_subseq_mono {A : Type} (p q : A -> bool) (l : list A) :
  (forall x, p x = true -> q x = true) -> subseq (filter p l) (filter q l).
Proof.
  intros H. induction l as [|a l IH]; simpl; [constructor|].
  destruct (p a) eqn:Ha.
  - rewrite (H a Ha). now constructor.
  - destruct (q a); [now constructor | exact IH].
Qed.

(** X7: Widening the box never loses a feature: the answer for a box lies,
    in order, within the answer for any box that contains it. *)
Theorem wider_box_returns_more (inner outer : bbox) (st : store)
    (H : inside inner outer) :
  subseq (gj_features (get_geojson inner st)) (gj_features (get_geojson outer st))
  /\ (total_in_bbox (get_geojson inner st) <= total_in_bbox (get_geojson outer st))%nat.
Proof.
  assert (Hs : subseq (gj_features (get_geojson inner st))
                      (gj_features (get_geojson outer st))).
  { rewrite !get_geojson_features. apply filter_subseq_mono.
    intros f Hf. apply included_numbers in Hf as (x & xs & y & ys & Hc & Ht).
    apply included_numbers. exists x, xs, y, ys. split; [exact Hc|].
    now apply overlap_test_inside with inner. }
  split; [exact Hs|].
  unfold get_geojson; cbn [total_in_bbox gj_features] in *.
  now apply subseq_length.
Qed.

(** X8: A box that holds one of the feature's longitudes and one of its
    latitudes returns the feature; so does the point box at any vertex. *)
Theorem box_over_a_coordinate_returns_feature (box : bbox) (st : store) (f : json)
    (xs ys : list Q) (x y : Q)
    (Hin : In f (all_features st)) (Hc : coordinates f = Some (xs, ys))
    (Hx : In x xs) (Hy : In y ys)
    (Hlat : (south box <= y)%Q /\ (y <= north box)%Q)
    (Hlng : (west box <= x)%Q /\ (x <= east box)%Q) :
  In f (gj_features (get_geojson box st))
  /\ In f (gj_features
             (get_geojson {| north := y; south := y; east := x; west := x |} st)).
Proof.
  assert (Hgen : forall b, (south b <= y)%Q /\ (y <= north b)%Q ->
                           (west b <= x)%Q /\ (x <= east b)%Q ->
                           In f (gj_features (get_geojson b st))).
  { intros b [Hs Hn] [Hw He].
    rewrite get_geojson_features. apply filter_In. split; [exact Hin|].
    apply included_numbers.
    destruct xs as [|x0 xs]; [destruct Hx|].
    destruct ys as [|y0 ys]; [destruct Hy|].
    exists x0, xs, y0, ys. split; [exact Hc|].
    unfold overlap_test. rewrite !andb_true_iff, !Qle_bool_iff.
    repeat split.
    - eapply Qle_trans; [|exact Hn]. now apply (Qselect_Lt_is_min ys y0).
    - eapply Qle_trans; [exact Hs|]. now apply (Qselect_Gt_is_max ys y0).
    - eapply Qle_trans; [|exact He]. now apply (Qselect_Lt_is_min xs x0).
    - eapply Qle_trans; [exact Hw|]. now apply (Qselect_Gt_is_max xs x0). }
  split; [now apply Hgen|].
  apply Hgen; simpl; split; apply Qle_refl.
Qed.

(** X9: An inverted box returns only features that span the gap: with north
    below south a feature whose latitudes are all equal is never
    returned, and likewise with east below west and equal longitudes. *)
Theorem inverted_box_drops_flat_features (box : bbox) (st : store) (f : json)
    (xs ys : list Q) (Hc : coordinates f = Some (xs, ys))
    (H : ((north box < south box)%Q /\ forall y y', In y ys -> In y' ys -> (y == y')%Q)
         \/ ((east box < west box)%Q /\ forall x x', In x xs -> In x' xs -> (x == x')%Q)) :
  ~ In f (gj_features (get_geojson box st)).
Proof.
  apply not_included_not_returned.
  destruct (included box f) eqn:Hi; [exfalso|reflexivity].
  apply included_numbers in Hi as (x & xs' & y & ys' & Hc' & Ht).
  rewrite Hc in Hc'. injection Hc' as -> ->.
  unfold overlap_test in Ht. rewrite !andb_true_iff, !Qle_bool_iff in Ht.
  destruct Ht as [[[H1 H2] H3] H4].
  destruct H as [[Hlt Hflat] | [Hlt Hflat]].
  - pose proof (Hflat _ _ (Qselect_In Py.Gt ys' y) (Qselect_In Py.Lt ys' y)) as E.
    apply (Qlt_irrefl (north box)).
    eapply Qlt_le_trans; [exact Hlt|].
    eapply Qle_trans; [exact H2|]. now rewrite E.
  - pose proof (Hflat _ _ (Qselect_In Py.Gt xs' x) (Qselect_In Py.Lt xs' x)) as E.
    apply (Qlt_irrefl (east box)).
    eapply Qlt_le_trans; [exact Hlt|].
    eapply Qle_trans; [exact H4|]. now rewrite E.
Qed.

Lemma items_at_0_positions ps :
  Py.items_at 0 (map position ps) = Ok (lngs_of (map fst ps)).
Proof.
  induction ps as [|p ps IH]; simpl; [reflexivity|]. now rewrite IH.
Qed.

Lemma items_at_1_positions ps :
  Py.items_at 1 (map position ps) = Ok (lats_of (map fst ps)).
Proof.
  induction ps as [|p ps IH]; simpl; [reflexivity|]. now rewrite IH.
Qed.

(** X10: Only the first two entries of a position are read: a LineString, or
    the outer ring of a Polygon, whose positions carry further entries
    (an altitude, or anything else) is kept or skipped for every box as
    the feature with the bare longitude-latitude pairs is. *)
Theorem further_position_entries_are_ignored (f f' tag : json)
    (ps : list ((Q * Q) * list json)) (rings rings' : list json)
    (H : (tag = JStr "LineString"
          /\ has_geometry f tag (positions ps)
          /\ has_geometry f' tag (line (map fst ps)))
         \/ (tag = JStr "Polygon"
             /\ has_geometry f tag (JList (positions ps :: rings))
             /\ has_geometry f' tag (JList (line (map fst ps) :: rings')))) :
  flatten f = Ok (Some (lngs_of (map fst ps), lats_of (map fst ps)))
  /\ forall box, process box f = process box f'.
Proof.
  assert (Hfl : flatten f = Ok (Some (lngs_of (map fst ps), lats_of (map fst ps)))
                /\ flatten f' = flatten f).
  { destruct H as [(-> & Hg & Hg') | (-> & Hg & Hg')];
      rewrite (flatten_has_geometry Hg), (flatten_has_geometry Hg'); simpl;
      unfold Py.comprehension; simpl;
      now rewrite items_at_0_positions, items_at_1_positions,
                  items_at_0_points, items_at_1_points. }
  destruct Hfl as [Hf Hf']. split; [exact Hf|].
  intros box. unfold process. now rewrite Hf'.
Qed.

(** ** Further properties of the statistics *)

Lemma count_color_ok f d :
  stats_typed f = true -> exists d', count_color d f = Ok d'.
Proof.
  intros Ht. destruct f as [| | | | |fd]; try discriminate.
  unfold count_color, stats_typed in *. simpl.
  destruct (Py.dict_lookup "properties" fd) as [[| | | | |pd]|]; try discriminate; simpl.
  - destruct (Py.dict_lookup "color" pd) as [[|b|q|s| |]|]; try discriminate; simpl;
      repeat match goal with
             | |- context [Py.dict_lookup ?k d] => destruct (Py.dict_lookup k d)
             end; eexists; reflexivity.
  - destruct (Py.dict_lookup "unknown" d); eexists; reflexivity.
Qed.

Lemma count_color_raise f d :
  stats_typed f = false -> count_color d f = Raise (stats_error f).
Proof.
  intros Ht. unfold count_color, stats_error, color_of, stats_typed in *.
  destruct f as [| | | | |fd]; try reflexivity. simpl.
  destruct (Py.dict_lookup "properties" fd) as [[| | | | |pd]|]; try discriminate;
    try reflexivity.
  simpl.
  destruct (Py.dict_lookup "color" pd) as [[|b|q|s| |]|]; try discriminate; reflexivity.
Qed.

Lemma count_colors_prefix pre rest : forall d,
  forallb stats_typed pre = true ->
  exists d', count_colors d (pre ++ rest) = count_colors d' rest.
Proof.
  induction pre as [|f pre IH]; intros d Ht; [now exists d|].
  simpl in Ht. apply andb_prop in Ht as [Hf Hpre].
  destruct (@count_color_ok f d Hf) as [d1 H1]. simpl. rewrite H1; simpl.
  now apply IH.
Qed.

Lemma count_colors_ok_iff l : forall d,
  (exists d', count_colors d l = Ok d') <-> forallb stats_typed l = true.
Proof.
  induction l as [|f l IH]; intros d; simpl.
  - split; [reflexivity | intros _; now exists d].
  - destruct (stats_typed f) eqn:Hf; simpl.
    + destruct (@count_color_ok f d Hf) as [d1 H1]. rewrite H1; simpl. apply IH.
    + rewrite (@count_color_raise f d Hf); simpl.
      split; [intros [d' H]; discriminate | discriminate].
Qed.

Lemma get_stats_ok_typed fs st r :
  get_stats fs st = Ok r -> forallb stats_typed (all_features st) = true.
Proof.
  intros H. apply (count_colors_ok_iff (all_features st) color_counts0).
  unfold get_stats in H.
  destruct (count_colors color_counts0 (all_features st)) as [d|]; [|discriminate].
  now exists d.
Qed.

(** X11: [get_stats] answers exactly on the collections in which every
    feature is an object whose [properties], when present, is an object
    and whose [color], when present, is neither a list nor an object. *)
Theorem get_stats_answers_iff_typed (fs : filesystem) (st : store) :
  (exists r, get_stats fs st = Ok r) <-> forallb stats_typed (all_features st) = true.
Proof.
  split.
  - intros [r H]. now apply get_stats_ok_typed with fs r.
  - intros H. apply (count_colors_ok_iff (all_features st) color_counts0) in H.
    destruct H as [d H]. unfold get_stats. rewrite H; simpl. eexists; reflexivity.
Qed.

(** X12: The first feature [get_stats] cannot count decides the exception,
    whatever follows it: a [TypeError] when its [color] is a list or an
    object, an [AttributeError] when the feature or its [properties] is
    not an object. *)
Theorem get_stats_first_failure (fs : filesystem) (pre post : list json) (f : json)
    (Hpre : forallb stats_typed pre = true) (Hf : stats_typed f = false) :
  get_stats fs {| all_features := pre ++ f :: post |} = Raise (stats_error f).
Proof.
  unfold get_stats; cbn [all_features].
  destruct (@count_colors_prefix pre (f :: post) color_counts0 Hpre) as [d ->].
  simpl. now rewrite (@count_color_raise f d Hf).
Qed.

Lemma tally_app c l1 l2 : tally c (l1 ++ l2) = (tally c l1 + tally c l2)%nat.
Proof. unfold tally. now rewrite filter_app, length_app. Qed.

Lemma get_stats_typed fs l :
  forallb stats_typed l = true ->
  get_stats fs {| all_features := l |} =
  Ok {| st_total_features := List.length l;
        color_distribution :=
          five (tally "red" l) (tally "blue" l) (tally "yellow" l)
               (tally "green" l) (tally "unknown" l);
        st_files_configured := List.length geojson_files;
        st_files_loaded := files_on_disk fs |}.
Proof.
  intros H. unfold get_stats; cbn [all_features].
  change color_counts0 with (five 0 0 0 0 0).
  rewrite (count_colors_typed _ _ _ _ _ _ H); simpl.
  now rewrite !Nat.add_0_r.
Qed.

(** X13: The statistics of two collections put end to end are the sums of
    their statistics, colour by colour and in total. *)
Theorem stats_add_up_over_concatenation (fs : filesystem) (l1 l2 : list json)
    (r1 r2 : stats_response)
    (H1 : get_stats fs {| all_features := l1 |} = Ok r1)
    (H2 : get_stats fs {| all_features := l2 |} = Ok r2) :
  exists r,
    get_stats fs {| all_features := l1 ++ l2 |} = Ok r
    /\ color_distribution r = add_counts (color_distribution r1) (color_distribution r2)
    /\ st_total_features r = (st_total_features r1 + st_total_features r2)%nat.
Proof.
  pose proof (get_stats_ok_typed _ _ H1) as T1.
  pose proof (get_stats_ok_typed _ _ H2) as T2. cbn [all_features] in T1, T2.
  rewrite (get_stats_typed fs _ T1) in H1. injection H1 as <-.
  rewrite (get_stats_typed fs _ T2) in H2. injection H2 as <-.
  assert (T : forallb stats_typed (l1 ++ l2) = true).
  { rewrite forallb_app, T1, T2. reflexivity. }
  rewrite (get_stats_typed fs _ T). eexists; split; [reflexivity|].
  cbn [color_distribution st_total_features].
  split; [|apply length_app].
  unfold add_counts, five; simpl. now rewrite !tally_app.
Qed.

(** X14: Whenever [get_stats] answers, the distribution has the five keys
    red, blue, yellow, green, unknown in that order, no other key, and
    its counts add up to [total_features]. *)
Theorem stats_distribution_shape (fs : filesystem) (st : store) (r : stats_response)
    (H : get_stats fs st = Ok r) :
  map fst (color_distribution r) = ["red"; "blue"; "yellow"; "green"; "unknown"]
  /\ list_sum (map snd (color_distribution r)) = st_total_features r
  /\ st_total_features r = List.length (all_features st).
Proof.
  pose proof (get_stats_ok_typed _ _ H) as T.
  destruct st as [l]. cbn [all_features] in *.
  rewrite (get_stats_typed fs _ T) in H. injection H as <-.
  cbn [color_distribution st_total_features].
  split; [reflexivity|]. split; [|reflexivity].
  unfold five; simpl. rewrite <- (tallies_sum l). lia.
Qed.

(** X15: An item of the collection that is not an object (a string, a
    number, a list, null) is handed out by [/geojson/all], is skipped by
    every box query, where the [AttributeError] is caught, and makes
    [get_stats] raise. *)
Theorem non_object_item_breaks_stats_only (fs : filesystem) (st : store) (f : json)
    (Hin : In f (all_features st)) (Hf : forall d, f <> JDict d) :
  In f (ga_features (get_all_geojson st))
  /\ (forall box, process box f = Raised AttributeError
                  /\ ~ In f (gj_features (get_geojson box st)))
  /\ exists e, get_stats fs st = Raise e.
Proof.
  split; [exact Hin|]. split.
  - intros box.
    assert (Hp : process box f = Raised AttributeError).
    { unfold process. now rewrite (not_object_raises Hf). }
    split; [exact Hp|].
    apply not_included_not_returned. unfold included. now rewrite Hp.
  - destruct (get_stats fs st) as [r|e] eqn:Hr; [exfalso | now exists e].
    pose proof (get_stats_ok_typed _ _ Hr) as T.
    rewrite forallb_forall in T. specialize (T f Hin).
    destruct f; try discriminate. now destruct (Hf fields).
Qed.

(** ** Further examples *)

Lemma load_concatenates_sources_in_order_witness :
  all_features (load_all_features two_files {| all_features := [road_old] |})
  = [road_a; road_b].
Proof.
  exact (proj1 (load_concatenates_sources_in_order two_files
                  {| all_features := [road_old] |})).
Defined.

Lemma barren_source_is_as_if_absent_witness :
  barren array_file "resources/split/indore_roads_part2.geojson"
  /\ load_all_features array_file {| all_features := [] |}
     = load_all_features
         (without "resources/split/indore_roads_part2.geojson" array_file)
         {| all_features := [] |}.
Proof.
  assert (Hb : barren array_file "resources/split/indore_roads_part2.geojson").
  { right; right; left. exists (JList [road_b]).
    split; [reflexivity | intros d; discriminate]. }
  split; [exact Hb|].
  exact (@barren_source_is_as_if_absent array_file {| all_features := [] |} _ Hb).
Defined.

Lemma health_error_after_reload_means_empty_witness :
  status (health no_files (fst (reload_features no_files {| all_features := [road_old] |})))
  = "error"
  /\ all_features (fst (reload_features no_files {| all_features := [road_old] |})) = [].
Proof.
  split; [reflexivity|].
  exact (proj1 (@health_error_after_reload_means_empty no_files
                  {| all_features := [road_old] |} eq_refl)).
Defined.

Lemma endpoints_agree_after_reload_witness :
  features_loaded
    (health two_files (fst (reload_features two_files {| all_features := [road_old] |})))
  = 2%nat.
Proof.
  exact (proj1 (endpoints_agree_after_reload two_files
                  {| all_features := [road_old] |}
                  {| north := 0; south := 0; east := 0; west := 0 |})).
Defined.

Lemma all_endpoint_keeps_what_the_query_drops_witness :
  In marker [road_a; marker]
  /\ has_geometry marker (JStr "Point") (JList [JNum 10; JNum 20])
  /\ ~ supported_tag (JStr "Point")
  /\ ~ In marker
         (gj_features
            (get_geojson {| north := 25; south := 15; east := 15; west := 5 |}
                         {| all_features := [road_a; marker] |})).
Proof.
  assert (Hin : In marker (all_features {| all_features := [road_a; marker] |})).
  { right; left; reflexivity. }
  assert (Hg : has_geometry marker (JStr "Point") (JList [JNum 10; JNum 20])).
  { eexists. repeat split; reflexivity. }
  assert (Hn : ~ supported_tag (JStr "Point")).
  { intros [E|[E|E]]; discriminate E. }
  split; [exact Hin|]. split; [exact Hg|]. split; [exact Hn|].
  exact (proj1 (proj2 (proj2 (@all_endpoint_keeps_what_the_query_drops
                                _ _ _ _ Hin Hg Hn))
                 {| north := 25; south := 15; east := 15; west := 5 |})).
Defined.

Lemma wider_box_returns_more_witness :
  inside {| north := 10; south := 0; east := 5; west := 0 |}
         {| north := 25; south := 0; east := 15; west := 0 |}
  /\ subseq
       (gj_features (get_geojson {| north := 10; south := 0; east := 5; west := 0 |}
                                 {| all_features := [road_a; road_b] |}))
       (gj_features (get_geojson {| north := 25; south := 0; east := 15; west := 0 |}
                                 {| all_features := [road_a; road_b] |})).
Proof.
  assert (Hi : inside {| north := 10; south := 0; east := 5; west := 0 |}
                      {| north := 25; south := 0; east := 15; west := 0 |}).
  { unfold inside, Qle; simpl. lia. }
  split; [exact Hi|].
  exact (proj1 (@wider_box_returns_more _ _ {| all_features := [road_a; road_b] |} Hi)).
Defined.

Lemma box_over_a_coordinate_returns_feature_witness :
  coordinates road_a = Some ([10; 12], [20; 22])%Q
  /\ In road_a
        (gj_features
           (get_geojson {| north := 20; south := 20; east := 10; west := 10 |}
                        {| all_features := [road_b; road_a] |})).
Proof.
  split; [reflexivity|].
  refine (proj2 (@box_over_a_coordinate_returns_feature
                   {| north := 25; south := 15; east := 15; west := 5 |}
                   {| all_features := [road_b; road_a] |} road_a
                   [10; 12]%Q [20; 22]%Q 10 20 _ eq_refl _ _ _ _)).
  - right; left; reflexivity.
  - left; reflexivity.
  - left; reflexivity.
  - unfold Qle; simpl. lia.
  - unfold Qle; simpl. lia.
Defined.

Lemma inverted_box_drops_flat_features_witness :
  coordinates road_flat = Some ([10; 12], [20; 20])%Q
  /\ ~ In road_flat
         (gj_features
            (get_geojson {| north := 15; south := 25; east := 15; west := 5 |}
                         {| all_features := [road_flat] |})).
Proof.
  split; [reflexivity|].
  refine (@inverted_box_drops_flat_features
            {| north := 15; south := 25; east := 15; west := 5 |}
            {| all_features := [road_flat] |} road_flat
            [10; 12]%Q [20; 20]%Q eq_refl _).
  left. split.
  - unfold Qlt; simpl. lia.
  - intros y y' [<-|[<-|[]]] [<-|[<-|[]]]; reflexivity.
Defined.

Lemma further_position_entries_are_ignored_witness :
  has_geometry road_3d (JStr "LineString")
    (positions [((10, 20), [JNum 550]); ((12, 22), [JNum 560; JNull])]%Q)
  /\ process {| north := 25; south := 15; east := 15; west := 5 |} road_3d
     = process {| north := 25; south := 15; east := 15; west := 5 |}
               (road "green" [(10, 20); (12, 22)]%Q).
Proof.
  assert (Hg : has_geometry road_3d (JStr "LineString")
                 (positions [((10, 20), [JNum 550]); ((12, 22), [JNum 560; JNull])]%Q)).
  { eexists. repeat split; reflexivity. }
  assert (Hg' : has_geometry (road "green" [(10, 20); (12, 22)]%Q) (JStr "LineString")
                  (line (map fst [((10, 20), [JNum 550]); ((12, 22), [JNum 560; JNull])]%Q))).
  { eexists. repeat split; reflexivity. }
  split; [exact Hg|].
  exact (proj2 (@further_position_entries_are_ignored road_3d _ (JStr "LineString")
                  _ [] [] (or_introl (conj eq_refl (conj Hg Hg'))))
               {| north := 25; south := 15; east := 15; west := 5 |}).
Defined.

Lemma get_stats_first_failure_witness :
  forallb stats_typed [road_a] = true
  /\ stats_typed list_color_feature = false
  /\ get_stats two_files {| all_features := [road_a] ++ list_color_feature :: [road_b] |}
     = Raise TypeError.
Proof.
  split; [reflexivity|]. split; [reflexivity|].
  exact (@get_stats_first_failure two_files [road_a] [road_b] list_color_feature
           eq_refl eq_refl).
Defined.

Lemma stats_add_up_over_concatenation_witness :
  exists r,
    get_stats two_files {| all_features := [road_a] ++ [road_b; road_old] |} = Ok r
    /\ color_distribution r
       = [("red", 1); ("blue", 1); ("yellow", 0); ("green", 0); ("unknown", 1)]%nat.
Proof.
  destruct (@stats_add_up_over_concatenation two_files [road_a] [road_b; road_old]
              _ _ eq_refl eq_refl) as (r & Hr & Hd & _).
  exists r. split; [exact Hr | exact Hd].
Defined.

Lemma stats_distribution_shape_witness :
  exists r,
    get_stats two_files {| all_features := [road_a; road_b; road_old] |} = Ok r
    /\ list_sum (map snd (color_distribution r)) = 3%nat.
Proof.
  eexists. split; [reflexivity|].
  exact (eq_trans
           (proj1 (proj2 (@stats_distribution_shape two_files
                            {| all_features := [road_a; road_b; road_old] |} _ eq_refl)))
           eq_refl).
Defined.

Lemma non_object_item_breaks_stats_only_witness :
  In (JStr "a") [road_a; JStr "a"]
  /\ (exists e, get_stats two_files {| all_features := [road_a; JStr "a"] |} = Raise e)
  /\ gj_features
       (get_geojson {| north := 25; south := 15; east := 15; west := 5 |}
                    {| all_features := [road_a; JStr "a"] |})
     = [road_a].
Proof.
  assert (Hin : In (JStr "a") (all_features {| all_features := [road_a; JStr "a"] |})).
  { right; left; reflexivity. }
  split; [exact Hin|].
  split; [|reflexivity].
  refine (proj2 (proj2 (@non_object_item_breaks_stats_only two_files _ (JStr "a") Hin _))).
  intros d; discriminate.
Defined.
